(** * my-api: identity and data-access core

    A shallow embedding of the Go sources
      - internal/model/user.go
      - internal/repository/repository.go, user_repository.go
      - internal/service/user_service.go and the auth service (Login)
      - internal/handler/user_handler.go (FindAll), pkg/response (Paginated)
    together with the properties the specification states about them.

    Go code that talks to a collaborator (the gorm handle, bcrypt's salt
    source, the clock) becomes a computation in a state monad over an
    arbitrary world [S]; the collaborators are records of operations on
    [S], the way the Go code reaches them through interfaces. *)

From Stdlib Require Import ZArith List String Bool Lia.
Import ListNotations.
Open Scope Z_scope.

(** ** Go's error values *)

(** Sentinel errors are package-level variables made by [errors.New] and are
    compared by identity; each one is a constructor.  [New] stands for any
    other error value (a driver or connection failure), [Wrap] for
    [fmt.Errorf("...: %w", inner)]. *)
Inductive error : Type :=
| ErrRecordNotFound            (* gorm.ErrRecordNotFound *)
| ErrUserNotFound              (* service: errors.New("user not found") *)
| ErrEmailAlreadyExists        (* service: errors.New("email already exists") *)
| ErrInvalidCredentials        (* service: errors.New("invalid credentials") *)
| ErrInvalidToken              (* jwt.ErrInvalidToken *)
| New (msg : string)
| Wrap (msg : string) (inner : error).

Definition error_eq_dec (a b : error) : {a = b} + {a <> b}.
Proof. decide equality; apply string_dec. Defined.

Definition error_eqb (a b : error) : bool :=
  if error_eq_dec a b then true else false.

Module errors.
(** [errors.Is]: the error itself or anything on its unwrap chain. *)
Fixpoint Is (err target : error) : bool :=
  error_eqb err target ||
  match err with
  | Wrap _ inner => Is inner target
  | _ => false
  end.
End errors.

(** A Go result pair [(v, err)] of which exactly one side is set. *)
Inductive result (A : Type) : Type :=
| Ok (a : A)
| Err (e : error).
Arguments Ok {A} a.
Arguments Err {A} e.

(** ** Computations over the outside world *)

Definition M (S A : Type) : Type := S -> A * S.

Definition ret {S A : Type} (a : A) : M S A := fun st => (a, st).

Definition bind {S A B : Type} (c : M S A) (k : A -> M S B) : M S B :=
  fun st => let (a, st') := c st in k a st'.

Declare Scope go_scope.
Delimit Scope go_scope with go.
Notation "x <- c ;; k" := (bind c (fun x => k))
  (at level 61, c at next level, right associativity) : go_scope.
Notation "' pat <- c ;; k" := (bind c (fun x => match x with pat => k end))
  (at level 61, pat pattern, c at next level, right associativity) : go_scope.
Open Scope go_scope.

(** ** Machine integers *)

(** Go's [int] is 64 bits wide; arithmetic wraps around. *)
Definition wrap_int (z : Z) : Z := (z + 2 ^ 63) mod 2 ^ 64 - 2 ^ 63.

(** ** internal/model *)

Module uuid.
(** [uuid.UUID], held in its canonical text form, so that [String] is the
    stored text itself. *)
Definition UUID : Type := string.
Definition Nil : UUID := "00000000-0000-0000-0000-000000000000"%string.
Definition String (u : UUID) : string := u.
End uuid.

Module model.
(** [model.Base] is embedded by every model: the identifier, the two
    timestamps and the soft-delete mark. *)
Record Base : Type := {
  ID : uuid.UUID;
  CreatedAt : Z;
  UpdatedAt : Z;
  DeletedAt : option Z
}.

Definition zeroBase : Base :=
  {| ID := uuid.Nil; CreatedAt := 0; UpdatedAt := 0; DeletedAt := None |}.

Record User : Type := {
  base : Base;
  Name : string;
  Email : string;
  Password : string;
  Role : string;
  IsActive : bool
}.
End model.
Import model.

(** ** gorm: the durable backend, as the repository uses it *)

Module gorm.
(** The query chains the repository builds on [*gorm.DB], one operation
    per chain.  [First col arg] is [Where(col = ?, arg).First(&e).Error],
    [Find off lim] is [Offset(off).Limit(lim).Find(&es).Error],
    [Delete col arg] is [Where(col = ?, arg).Delete(&e).Error].
    [Create] and [Save] receive a pointer and may fill it in (identifier,
    timestamps), so they give the entity back. *)
Record DB (T S : Type) : Type := {
  Create : T -> M S (T * option error);
  First : string -> string -> M S (result T);
  Count : M S (result Z);
  Find : Z -> Z -> M S (list T * option error);
  Save : T -> M S (T * option error);
  Delete : string -> string -> M S (option error)
}.
Arguments Create {T S} _ _ _.
Arguments First {T S} _ _ _ _.
Arguments Count {T S} _ _.
Arguments Find {T S} _ _ _ _.
Arguments Save {T S} _ _ _.
Arguments Delete {T S} _ _ _ _.
End gorm.

(** ** internal/repository *)

Module repository.
(** The [UserRepository] interface.  [FindByID] and [FindByEmail] return
    either [(nil, err)] or [(&entity, nil)], hence a [result]. *)
Record UserRepository (S : Type) : Type := {
  Create : User -> M S (User * option error);
  FindByID : string -> M S (result User);
  FindByEmail : string -> M S (result User);
  FindAll : Z -> Z -> M S (list User * Z * option error);
  Update : User -> M S (User * option error);
  Delete : string -> M S (option error)
}.
Arguments Create {S} _ _ _.
Arguments FindByID {S} _ _ _.
Arguments FindByEmail {S} _ _ _.
Arguments FindAll {S} _ _ _ _.
Arguments Update {S} _ _ _.
Arguments Delete {S} _ _ _.

Section BaseRepository.
Context {T S : Type}.

Record BaseRepository : Type := { DB : gorm.DB T S }.

Definition NewBaseRepository (db : gorm.DB T S) : BaseRepository :=
  {| DB := db |}.

Definition BaseRepository_Create (r : BaseRepository) (entity : T)
  : M S (T * option error) :=
  gorm.Create (DB r) entity.

Definition BaseRepository_FindByID (r : BaseRepository) (id : string)
  : M S (result T) :=
  err <- gorm.First (DB r) "id" id ;;
  match err with
  | Err e => ret (Err e)
  | Ok entity => ret (Ok entity)
  end.

(** [total] starts as the zero value; the value [Count] returns is not
    looked at, so a failed count leaves [total] at zero. *)
Definition BaseRepository_FindAll (r : BaseRepository) (page perPage : Z)
  : M S (list T * Z * option error) :=
  counted <- gorm.Count (DB r) ;;
  let total := match counted with Ok n => n | Err _ => 0 end in
  let offset := wrap_int (wrap_int (page - 1) * perPage) in
  '(entities, err) <- gorm.Find (DB r) offset perPage ;;
  ret (entities, total, err).

Definition BaseRepository_Update (r : BaseRepository) (entity : T)
  : M S (T * option error) :=
  gorm.Save (DB r) entity.

Definition BaseRepository_Delete (r : BaseRepository) (id : string)
  : M S (option error) :=
  gorm.Delete (DB r) "id" id.
End BaseRepository.
Arguments BaseRepository : clear implicits.

Section userRepository.
Context {S : Type}.

Definition userRepository : Type := BaseRepository User S.

Definition userRepository_FindByEmail (r : userRepository) (email : string)
  : M S (result User) :=
  err <- gorm.First (DB r) "email" email ;;
  match err with
  | Err e => ret (Err e)
  | Ok user => ret (Ok user)
  end.

Definition NewUserRepository (db : gorm.DB User S) : UserRepository S :=
  let r : userRepository := NewBaseRepository db in
  {| Create := BaseRepository_Create r;
     FindByID := BaseRepository_FindByID r;
     FindByEmail := userRepository_FindByEmail r;
     FindAll := BaseRepository_FindAll r;
     Update := BaseRepository_Update r;
     Delete := BaseRepository_Delete r |}.
End userRepository.
End repository.


(** ** golang.org/x/crypto/bcrypt *)

Module bcrypt.
(** The two functions of the package the services call.  Hashing draws a
    fresh salt, so it runs in the world; comparing is a function of its two
    arguments and answers [nil] ([None]) on a match. *)
Record Package (S : Type) : Type := {
  GenerateFromPassword : string -> Z -> M S (result string);
  CompareHashAndPassword : string -> string -> option error
}.
Arguments GenerateFromPassword {S} _ _ _ _.
Arguments CompareHashAndPassword {S} _ _ _.

Definition DefaultCost : Z := 10.
End bcrypt.

(** ** pkg/jwt *)

Module jwt.
(** Modelled from the spec: pkg/jwt/jwt.go is not among the sources (its
    test file and its callers are).  Section 4.1: [Issue] encodes the claims
    subject, email, role, issued_at = now and expires_at = now + ttl and
    signs them with the secret fixed at construction, failing only when
    signing fails; [Verify] fails with the single error [InvalidToken] when
    the token is malformed, the signature does not match or
    expires_at <= now.  The ttl is a number of hours; times are in seconds.
    A token is kept decoded: text that does not parse, or a claims set with
    its signature. *)
Record Claims : Type := {
  UserID : string;
  Email : string;
  Role : string;
  IssuedAt : Z;
  ExpiresAt : Z
}.

Inductive Token : Type :=
| Malformed (raw : string)
| Signed (claims : Claims) (signature : string).

Record JWTManager : Type := {
  secret : string;
  expireHours : Z
}.

Definition NewJWTManager (secret : string) (expireHours : Z) : JWTManager :=
  {| secret := secret; expireHours := expireHours |}.

Section signing.
(** The keyed signature primitive. *)
Variable sign : string -> Claims -> result string.

Definition Generate (m : JWTManager) (now : Z) (userID email role : string)
  : result Token :=
  let claims :=
    {| UserID := userID; Email := email; Role := role;
       IssuedAt := now; ExpiresAt := now + expireHours m * 3600 |} in
  match sign (secret m) claims with
  | Err e => Err e
  | Ok signature => Ok (Signed claims signature)
  end.

Definition Validate (m : JWTManager) (now : Z) (token : Token)
  : result Claims :=
  match token with
  | Malformed _ => Err ErrInvalidToken
  | Signed claims signature =>
      match sign (secret m) claims with
      | Err _ => Err ErrInvalidToken
      | Ok expected =>
          if negb (String.eqb signature expected) then Err ErrInvalidToken
          else if ExpiresAt claims <=? now then Err ErrInvalidToken
          else Ok claims
      end
  end.
End signing.
End jwt.

(** ** internal/service *)

Module service.

Module CreateUserInput.
Record t : Type := { Name : string; Email : string; Password : string }.
End CreateUserInput.

Module UpdateUserInput.
Record t : Type := { Name : string }.
End UpdateUserInput.

Module UserResponse.
Record t : Type := {
  ID : string;
  Name : string;
  Email : string;
  Role : string;
  IsActive : bool
}.
End UserResponse.

Module LoginInput.
Record t : Type := { Email : string; Password : string }.
End LoginInput.

Module AuthResponse.
Record t : Type := { Token : jwt.Token; User : UserResponse.t }.
End AuthResponse.

Definition toUserResponse (user : User) : UserResponse.t :=
  {| UserResponse.ID := uuid.String (ID (base user));
     UserResponse.Name := Name user;
     UserResponse.Email := Email user;
     UserResponse.Role := Role user;
     UserResponse.IsActive := IsActive user |}.

Section userService.
Context {S : Type}.
Variable crypt : bcrypt.Package S.
(** The receiver's only field. *)
Variable userRepo : repository.UserRepository S.

Definition Create (input : CreateUserInput.t) : M S (result UserResponse.t) :=
  existing <- repository.FindByEmail userRepo (CreateUserInput.Email input) ;;
  match existing with
  | Ok _ => ret (Err ErrEmailAlreadyExists)
  | Err _ =>
      hashedPassword <- bcrypt.GenerateFromPassword crypt
                          (CreateUserInput.Password input) bcrypt.DefaultCost ;;
      match hashedPassword with
      | Err err => ret (Err err)
      | Ok hashedPassword =>
          let user :=
            {| base := zeroBase;
               Name := CreateUserInput.Name input;
               Email := CreateUserInput.Email input;
               Password := hashedPassword;
               Role := "user";
               IsActive := true |} in
          '(user, err) <- repository.Create userRepo user ;;
          match err with
          | Some err => ret (Err err)
          | None => ret (Ok (toUserResponse user))
          end
      end
  end.

Definition FindByID (id : string) : M S (result UserResponse.t) :=
  found <- repository.FindByID userRepo id ;;
  match found with
  | Err err =>
      if errors.Is err ErrRecordNotFound then ret (Err ErrUserNotFound)
      else ret (Err err)
  | Ok user => ret (Ok (toUserResponse user))
  end.

Definition FindAll (page perPage : Z)
  : M S (list UserResponse.t * Z * option error) :=
  '(users, total, err) <- repository.FindAll userRepo page perPage ;;
  match err with
  | Some err => ret ([], 0, Some err)
  | None => ret (map toUserResponse users, total, None)
  end.

Definition Update (id : string) (input : UpdateUserInput.t)
  : M S (result UserResponse.t) :=
  found <- repository.FindByID userRepo id ;;
  match found with
  | Err err =>
      if errors.Is err ErrRecordNotFound then ret (Err ErrUserNotFound)
      else ret (Err err)
  | Ok user =>
      let user :=
        if negb (String.eqb (UpdateUserInput.Name input) "")
        then {| base := base user;
                Name := UpdateUserInput.Name input;
                Email := Email user;
                Password := Password user;
                Role := Role user;
                IsActive := IsActive user |}
        else user in
      '(user, err) <- repository.Update userRepo user ;;
      match err with
      | Some err => ret (Err err)
      | None => ret (Ok (toUserResponse user))
      end
  end.

Definition Delete (id : string) : M S (option error) :=
  found <- repository.FindByID userRepo id ;;
  match found with
  | Err err =>
      if errors.Is err ErrRecordNotFound then ret (Some ErrUserNotFound)
      else ret (Some err)
  | Ok _ => repository.Delete userRepo id
  end.
End userService.

Section authService.
Context {S : Type}.
Variable crypt : bcrypt.Package S.
(** The receiver's two fields; of the token manager, [Login] calls
    [Generate] only, which reads the clock and so runs in the world. *)
Variable userRepo : repository.UserRepository S.
Variable jwtManager_Generate : string -> string -> string -> M S (result jwt.Token).

Definition Login (input : LoginInput.t) : M S (result AuthResponse.t) :=
  found <- repository.FindByEmail userRepo (LoginInput.Email input) ;;
  match found with
  | Err _ => ret (Err ErrInvalidCredentials)
  | Ok user =>
      match bcrypt.CompareHashAndPassword crypt (Password user)
              (LoginInput.Password input) with
      | Some _ => ret (Err ErrInvalidCredentials)
      | None =>
          if negb (IsActive user) then ret (Err ErrInvalidCredentials)
          else
            token <- jwtManager_Generate (uuid.String (ID (base user)))
                       (Email user) (Role user) ;;
            match token with
            | Err err => ret (Err err)
            | Ok token =>
                ret (Ok {| AuthResponse.Token := token;
                           AuthResponse.User := toUserResponse user |})
            end
      end
  end.
End authService.
End service.

(** ** pkg/response and internal/handler: the list endpoint *)

Module response.
Record PaginatedData : Type := {
  Items : list service.UserResponse.t;
  Total : Z;
  Page : Z;
  PerPage : Z;
  TotalPages : Z
}.

Inductive Body : Type :=
| Data (d : PaginatedData)
| Error (message : string).

(** What a handler leaves behind: a status with a body, or a run-time
    panic (integer division by zero in [Paginated]). *)
Inductive Reply : Type :=
| Panic
| JSON (status : Z) (success : bool) (body : Body).

Definition InternalServerError (message : string) : Reply :=
  JSON 500 false (Error message).

Definition Paginated (items : list service.UserResponse.t) (total : Z)
  (page perPage : Z) : Reply :=
  if perPage =? 0 then Panic
  else
    let totalPages := wrap_int (Z.quot total perPage) in
    let totalPages :=
      if 0 <? Z.rem total perPage then wrap_int (totalPages + 1)
      else totalPages in
    JSON 200 true
      (Data {| Items := items; Total := total; Page := page;
               PerPage := perPage; TotalPages := totalPages |}).
End response.

Module handler.
Section UserHandler.
Context {S : Type}.
(** The receiver's field is the [UserService] interface; [FindAll] calls
    its method of the same name. *)
Variable userService_FindAll :
  Z -> Z -> M S (list service.UserResponse.t * Z * option error).

(** [page] and [perPage] are the integers [strconv.Atoi] made of the query
    values [page] and [per_page]. *)
Definition FindAll (page perPage : Z) : M S response.Reply :=
  let page := if page <? 1 then 1 else page in
  let perPage := if (perPage <? 1) || (100 <? perPage) then 10 else perPage in
  '(users, total, err) <- userService_FindAll page perPage ;;
  match err with
  | Some _ => ret (response.InternalServerError "Failed to fetch users")
  | None => ret (response.Paginated users total page perPage)
  end.
End UserHandler.
End handler.

(** ** Recording collaborators

    The service tests put a recording double in front of the repository
    ([MockUserRepository], whose every method starts with [m.Called]).  The
    same is done here for any repository: the world is paired with the list
    of calls made so far, oldest first. *)

Module mock.
Inductive Call : Type :=
| CallCreate (user : User)
| CallFindByID (id : string)
| CallFindByEmail (email : string)
| CallFindAll (page perPage : Z)
| CallUpdate (user : User)
| CallDelete (id : string)
| CallGenerateFromPassword (password : string).

Definition Called {S A : Type} (c : Call) (m : M S A) : M (S * list Call) A :=
  fun w => let (a, st') := m (fst w) in (a, (st', (snd w ++ [c])%list)).

(** A collaborator that is used but not recorded. *)
Definition Untracked {S A : Type} (m : M S A) : M (S * list Call) A :=
  fun w => let (a, st') := m (fst w) in (a, (st', snd w)).

Definition UserRepository {S : Type} (r : repository.UserRepository S)
  : repository.UserRepository (S * list Call) :=
  {| repository.Create := fun user =>
       Called (CallCreate user) (repository.Create r user);
     repository.FindByID := fun id =>
       Called (CallFindByID id) (repository.FindByID r id);
     repository.FindByEmail := fun email =>
       Called (CallFindByEmail email) (repository.FindByEmail r email);
     repository.FindAll := fun page perPage =>
       Called (CallFindAll page perPage) (repository.FindAll r page perPage);
     repository.Update := fun user =>
       Called (CallUpdate user) (repository.Update r user);
     repository.Delete := fun id =>
       Called (CallDelete id) (repository.Delete r id) |}.

Definition Bcrypt {S : Type} (b : bcrypt.Package S)
  : bcrypt.Package (S * list Call) :=
  {| bcrypt.GenerateFromPassword := fun password cost =>
       Called (CallGenerateFromPassword password)
              (bcrypt.GenerateFromPassword b password cost);
     bcrypt.CompareHashAndPassword := bcrypt.CompareHashAndPassword b |}.

(** The calls an operation made when started with an empty record. *)
Definition calls {S A : Type} (m : M (S * list Call) A) (st : S) : list Call :=
  snd (snd (m (st, []))).

Definition answer {S A : Type} (m : M (S * list Call) A) (st : S) : A :=
  fst (m (st, [])).

Definition world {S A : Type} (m : M (S * list Call) A) (st : S) : S :=
  fst (snd (m (st, []))).
End mock.

(** ** An in-memory backend

    A small table of users with switches for injected failures; it stands
    in for the database wherever a concrete run is shown. *)

Module memdb.
Record state : Type := {
  rows : list User;
  lookup_error : option error;   (* First fails with this *)
  count_error : option error;    (* Count fails with this *)
  find_error : option error;     (* Find fails with this *)
  write_error : option error;    (* Create, Save and Delete fail with this *)
  clock : Z                      (* seconds *)
}.

Definition with_rows (st : state) (rs : list User) : state :=
  {| rows := rs; lookup_error := lookup_error st;
     count_error := count_error st; find_error := find_error st;
     write_error := write_error st; clock := clock st |}.

Definition column (col : string) (u : User) : string :=
  if String.eqb col "id" then ID (base u)
  else if String.eqb col "email" then Email u
  else "".

Definition with_ID (u : User) (id : string) : User :=
  {| base := {| ID := id; CreatedAt := CreatedAt (base u);
                UpdatedAt := UpdatedAt (base u);
                DeletedAt := DeletedAt (base u) |};
     Name := Name u; Email := Email u; Password := Password u;
     Role := Role u; IsActive := IsActive u |}.

Definition db : gorm.DB User state :=
  {| gorm.Create := fun u st =>
       match write_error st with
       | Some e => ((u, Some e), st)
       | None =>
           let u' := with_ID u (String.append "id-of-" (Email u)) in
           ((u', None), with_rows st (rows st ++ [u'])%list)
       end;
     gorm.First := fun col arg st =>
       match lookup_error st with
       | Some e => (Err e, st)
       | None =>
           match find (fun u => String.eqb (column col u) arg) (rows st) with
           | Some u => (Ok u, st)
           | None => (Err ErrRecordNotFound, st)
           end
       end;
     gorm.Count := fun st =>
       match count_error st with
       | Some e => (Err e, st)
       | None => (Ok (Z.of_nat (List.length (rows st))), st)
       end;
     gorm.Find := fun offset limit st =>
       match find_error st with
       | Some e => (([], Some e), st)
       | None =>
           ((firstn (Z.to_nat limit) (skipn (Z.to_nat offset) (rows st)), None),
            st)
       end;
     gorm.Save := fun u st =>
       match write_error st with
       | Some e => ((u, Some e), st)
       | None =>
           ((u, None),
            with_rows st
              (map (fun v => if String.eqb (ID (base v)) (ID (base u))
                             then u else v) (rows st)))
       end;
     gorm.Delete := fun col arg st =>
       match write_error st with
       | Some e => (Some e, st)
       | None =>
           (None,
            with_rows st
              (filter (fun u => negb (String.eqb (column col u) arg)) (rows st)))
       end |}.

(** bcrypt's stand-in: the hash is the password behind a fixed prefix. *)
Definition crypt : bcrypt.Package state :=
  {| bcrypt.GenerateFromPassword := fun password _ st =>
       (Ok (String.append "$2a$" password), st);
     bcrypt.CompareHashAndPassword := fun hash password =>
       if String.eqb hash (String.append "$2a$" password) then None
       else Some (New "hashedPassword is not the hash of the given password") |}.

(** A signature stand-in: the secret followed by the subject. *)
Definition sign (secret : string) (c : jwt.Claims) : result string :=
  Ok (String.append secret (String.append "." (jwt.UserID c))).

Definition manager : jwt.JWTManager :=
  jwt.NewJWTManager "test-secret-key-min-32-characters" 24.

Definition Generate (userID email role : string) : M state (result jwt.Token) :=
  fun st => (jwt.Generate sign manager (clock st) userID email role, st).

Definition alice : User :=
  {| base := {| ID := "a1"%string; CreatedAt := 10; UpdatedAt := 10;
                DeletedAt := None |};
     Name := "Alice"; Email := "alice@example.com";
     Password := "$2a$correct horse"; Role := "admin"; IsActive := true |}.

Definition bob : User :=
  {| base := {| ID := "b2"%string; CreatedAt := 20; UpdatedAt := 20;
                DeletedAt := None |};
     Name := "Bob"; Email := "bob@example.com";
     Password := "$2a$battery staple"; Role := "user"; IsActive := false |}.

Definition healthy : state :=
  {| rows := [alice; bob]; lookup_error := None; count_error := None;
     find_error := None; write_error := None; clock := 1000 |}.

(** The backend cannot be reached for look-ups. *)
Definition lookups_down : state :=
  {| rows := [alice; bob];
     lookup_error := Some (New "dial tcp 127.0.0.1:5432: connection refused");
     count_error := None; find_error := None; write_error := None;
     clock := 1000 |}.

(** Only the count query fails. *)
Definition count_down : state :=
  {| rows := [alice; bob]; lookup_error := None;
     count_error := Some (New "context deadline exceeded");
     find_error := None; write_error := None; clock := 1000 |}.

Definition repo : repository.UserRepository state :=
  repository.NewUserRepository db.
End memdb.

(** * The delivery layer

    The rest of the repository, as far as it decides anything: the strings
    helpers it relies on, pkg/validator, the whole of pkg/response, the
    environment look-ups of internal/config, the two middlewares and the
    handlers, and the routes that chain them. *)

Definition len {A : Type} (l : list A) : Z := Z.of_nat (List.length l).

(** ** strings *)

Module strings.
(** [strings.Split(s, sep)] for a one-character separator: every piece
    between separators, empty pieces included; a string without the
    separator, the empty string too, gives the one piece [s]. *)
Fixpoint Split (s : string) (sep : Ascii.ascii) : list string :=
  match s with
  | EmptyString => [EmptyString]
  | String c rest =>
      if Ascii.eqb c sep then EmptyString :: Split rest sep
      else match Split rest sep with
           | piece :: pieces => String c piece :: pieces
           | [] => [String c EmptyString]
           end
  end.

(** [strings.SplitN(s, sep, n)] for [n >= 0]: at most [n] pieces, the last
    one being the unsplit remainder; none at all for [n = 0]. *)
Fixpoint SplitN (s : string) (sep : Ascii.ascii) (n : nat) {struct s}
  : list string :=
  match n with
  | O => []
  | S O => [s]
  | S (S _ as n') =>
      match s with
      | EmptyString => [EmptyString]
      | String c rest =>
          if Ascii.eqb c sep then EmptyString :: SplitN rest sep n'
          else match SplitN rest sep n with
               | piece :: pieces => String c piece :: pieces
               | [] => [String c EmptyString]
               end
      end
  end.

Definition space : Ascii.ascii := Ascii.ascii_of_nat 32.
Definition comma : Ascii.ascii := Ascii.ascii_of_nat 44.

(** Whether a character occurs in a string. *)
Fixpoint ContainsRune (s : string) (c : Ascii.ascii) : bool :=
  match s with
  | EmptyString => false
  | String d rest => Ascii.eqb d c || ContainsRune rest c
  end.
End strings.

(** ** pkg/validator *)

Module validator.

(** What the validation library reports for one failed rule:
    [FieldError.Field()], [.Tag()] and [.Param()]. *)
Module FieldError.
Record t : Type := { Field : string; Tag : string; Param : string }.
End FieldError.

Module ErrorResponse.
Record t : Type := { Field : string; Tag : string; Message : string }.
End ErrorResponse.

(** The function [Init] registers to name a field: the json tag up to its
    first comma, and nothing for the tag ["-"]. *)
Definition tagName (jsonTag : string) : string :=
  let name := nth 0 (strings.SplitN jsonTag strings.comma 2) EmptyString in
  if String.eqb name "-" then EmptyString else name.

Definition generateMessage (err : FieldError.t) : string :=
  let tag := FieldError.Tag err in
  if String.eqb tag "required" then
    String.append (FieldError.Field err) " is required"
  else if String.eqb tag "email" then
    String.append (FieldError.Field err) " must be a valid email"
  else if String.eqb tag "min" then
    String.append (FieldError.Field err)
      (String.append " must be at least "
         (String.append (FieldError.Param err) " characters"))
  else if String.eqb tag "max" then
    String.append (FieldError.Field err)
      (String.append " must be at most "
         (String.append (FieldError.Param err) " characters"))
  else if String.eqb tag "eqfield" then
    String.append (FieldError.Field err)
      (String.append " must match " (FieldError.Param err))
  else
    String.append (FieldError.Field err) " is invalid".

Section Validate.
Context {A : Type}.
(** [Get().Struct(data)]: the failed rules of a struct, none when it is
    valid.  The handlers pass pointers to structs only, so the library's
    other error (not a struct) does not arise. *)
Variable Struct : A -> list FieldError.t.

(** The loop appends one entry per failed rule. *)
Definition Validate (data : A) : list ErrorResponse.t :=
  fold_left
    (fun errors err =>
       (errors ++ [{| ErrorResponse.Field := FieldError.Field err;
                      ErrorResponse.Tag := FieldError.Tag err;
                      ErrorResponse.Message := generateMessage err |}])%list)
    (Struct data) [].
End Validate.
End validator.

(** ** pkg/response, in full *)

Module pkg_response.
(** What a handler can put under [data] or [error]. *)
Inductive Payload : Type :=
| User (user : service.UserResponse.t)
| Auth (auth : service.AuthResponse.t)
| Map (entries : list (string * option string))
| Text (message : string)
| Errors (errs : list validator.ErrorResponse.t).

Record Response : Type := {
  Success_ : bool;
  Message : string;
  Data : option Payload;
  Error_ : option Payload
}.

(** A JSON body under a status, a bare status, or a run-time panic. *)
Inductive Reply : Type :=
| JSON (status : Z) (body : Response)
| SendStatus (status : Z)
| Panic.

Definition Success (data : Payload) : Reply :=
  JSON 200 {| Success_ := true; Message := ""; Data := Some data;
              Error_ := None |}.

Definition SuccessWithMessage (message : string) (data : Payload) : Reply :=
  JSON 200 {| Success_ := true; Message := message; Data := Some data;
              Error_ := None |}.

Definition Created (data : Payload) : Reply :=
  JSON 201 {| Success_ := true; Message := ""; Data := Some data;
              Error_ := None |}.

Definition NoContent : Reply := SendStatus 204.

Definition Error (statusCode : Z) (message : string) : Reply :=
  JSON statusCode {| Success_ := false; Message := ""; Data := None;
                     Error_ := Some (Text message) |}.

Definition BadRequest (message : string) : Reply := Error 400 message.
Definition Unauthorized (message : string) : Reply := Error 401 message.
Definition Forbidden (message : string) : Reply := Error 403 message.
Definition NotFound (message : string) : Reply := Error 404 message.
Definition InternalServerError (message : string) : Reply := Error 500 message.

Definition ValidationError (errors : list validator.ErrorResponse.t) : Reply :=
  JSON 422 {| Success_ := false; Message := ""; Data := None;
              Error_ := Some (Errors errors) |}.

Definition status (r : Reply) : option Z :=
  match r with
  | JSON s _ => Some s
  | SendStatus s => Some s
  | Panic => None
  end.
End pkg_response.

(** ** internal/config: the environment *)

Module config.
Record AppConfig : Type := { Env : string; Port : string; Name : string }.

Record DBConfig : Type := {
  Host : string;
  DBPort : string;
  User : string;
  Password : string;
  DBName : string
}.

Record JWTConfig : Type := { Secret : string; ExpireHours : Z }.

Record Config : Type := { App : AppConfig; DB : DBConfig; JWT : JWTConfig }.

Section environment.
(** [os.Getenv]: the value of a variable, empty when it is not set. *)
Variable Getenv : string -> string.
(** [strconv.Atoi]. *)
Variable Atoi : string -> result Z.

Definition getEnv (key fallback : string) : string :=
  let val := Getenv key in
  if negb (String.eqb val "") then val else fallback.

Definition getEnvInt (key : string) (fallback : Z) : Z :=
  let val := Getenv key in
  if negb (String.eqb val "") then
    match Atoi val with
    | Ok i => i
    | Err _ => fallback
    end
  else fallback.

Definition Load : Config :=
  {| App := {| Env := getEnv "APP_ENV" "development";
               Port := getEnv "APP_PORT" "3000";
               Name := getEnv "APP_NAME" "my-api" |};
     DB := {| Host := getEnv "DB_HOST" "localhost";
              DBPort := getEnv "DB_PORT" "5432";
              User := getEnv "DB_USER" "postgres";
              Password := getEnv "DB_PASSWORD" "";
              DBName := getEnv "DB_NAME" "db" |};
     JWT := {| Secret := getEnv "JWT_SECRET" "";
               ExpireHours := getEnvInt "JWT_EXPIRE_HOURS" 24 |} |}.
End environment.
End config.

(** ** fiber: the request context *)

Module fiber.
(** The parts of [*fiber.Ctx] the handlers read and write: request headers
    ([Get], empty when absent), route parameters, the raw body, and the
    per-request locals, newest first. *)
Record Ctx : Type := {
  Get : string -> string;
  Params : string -> string;
  Body : string;
  locals : list (string * string)
}.

(** [c.Locals(key, value)]. *)
Definition SetLocals (c : Ctx) (key value : string) : Ctx :=
  {| Get := Get c; Params := Params c; Body := Body c;
     locals := (key, value) :: locals c |}.

(** [c.Locals(key)]: the newest value stored under the key, [nil] when
    there is none. *)
Definition Locals (c : Ctx) (key : string) : option string :=
  match find (fun kv => String.eqb (fst kv) key) (locals c) with
  | Some kv => Some (snd kv)
  | None => None
  end.
End fiber.

(** ** internal/middleware *)

Module middleware.
Section middleware.
Context {S : Type}.
(** [jwtManager.Validate], which reads the clock. *)
Variable jwtManager_Validate : string -> M S (result jwt.Claims).
(** The [Error()] method of error values. *)
Variable Error : error -> string.

(** A handler gets the context and, for a middleware, the rest of the
    chain, which [c.Next()] runs. *)
Definition Auth (next : fiber.Ctx -> M S pkg_response.Reply) (c : fiber.Ctx)
  : M S pkg_response.Reply :=
  let authHeader := fiber.Get c "Authorization" in
  if String.eqb authHeader "" then
    ret (pkg_response.Unauthorized "Missing authorization header")
  else
    let parts := strings.Split authHeader strings.space in
    if negb (len parts =? 2)
       || negb (String.eqb (nth 0 parts EmptyString) "Bearer") then
      ret (pkg_response.Unauthorized "Invalid authorization format")
    else
      validated <- jwtManager_Validate (nth 1 parts EmptyString) ;;
      match validated with
      | Err err => ret (pkg_response.Unauthorized (Error err))
      | Ok claims =>
          let c := fiber.SetLocals c "user_id" (jwt.UserID claims) in
          let c := fiber.SetLocals c "email" (jwt.Email claims) in
          let c := fiber.SetLocals c "role" (jwt.Role claims) in
          next c
      end.

(** The loop of [RoleRequired] over the allowed roles. *)
Fixpoint RoleRequired_range (userRole : string) (roles : list string)
  (next : fiber.Ctx -> M S pkg_response.Reply) (c : fiber.Ctx)
  : M S pkg_response.Reply :=
  match roles with
  | [] => ret (pkg_response.Forbidden "Insufficient permissions")
  | role :: roles =>
      if String.eqb userRole role then next c
      else RoleRequired_range userRole roles next c
  end.

(** The type assertion [c.Locals("role").(string)] panics on [nil]. *)
Definition RoleRequired (roles : list string)
  (next : fiber.Ctx -> M S pkg_response.Reply) (c : fiber.Ctx)
  : M S pkg_response.Reply :=
  match fiber.Locals c "role" with
  | None => ret pkg_response.Panic
  | Some userRole => RoleRequired_range userRole roles next c
  end.
End middleware.
End middleware.

(** ** internal/handler: the user endpoints other than the list *)

Module user_handler.
Section UserHandler.
Context {S : Type}.
(** [c.BodyParser] for the two inputs and the validation library's verdict
    on them. *)
Variable BodyParser_Create : string -> result service.CreateUserInput.t.
Variable BodyParser_Update : string -> result service.UpdateUserInput.t.
Variable Struct_Create : service.CreateUserInput.t -> list validator.FieldError.t.
Variable Struct_Update : service.UpdateUserInput.t -> list validator.FieldError.t.
Variable Error : error -> string.
(** The receiver's field, the [UserService] interface. *)
Variable userService_Create :
  service.CreateUserInput.t -> M S (result service.UserResponse.t).
Variable userService_FindByID : string -> M S (result service.UserResponse.t).
Variable userService_Update :
  string -> service.UpdateUserInput.t -> M S (result service.UserResponse.t).
Variable userService_Delete : string -> M S (option error).

Definition Create (c : fiber.Ctx) : M S pkg_response.Reply :=
  match BodyParser_Create (fiber.Body c) with
  | Err _ => ret (pkg_response.BadRequest "Invalid request body")
  | Ok input =>
      let errs := validator.Validate Struct_Create input in
      if 0 <? len errs then ret (pkg_response.ValidationError errs)
      else
        created <- userService_Create input ;;
        match created with
        | Err err =>
            if errors.Is err ErrEmailAlreadyExists then
              ret (pkg_response.BadRequest (Error err))
            else ret (pkg_response.InternalServerError "Failed to create user")
        | Ok user => ret (pkg_response.Created (pkg_response.User user))
        end
  end.

Definition FindByID (c : fiber.Ctx) : M S pkg_response.Reply :=
  let id := fiber.Params c "id" in
  found <- userService_FindByID id ;;
  match found with
  | Err err =>
      if errors.Is err ErrUserNotFound then
        ret (pkg_response.NotFound (Error err))
      else ret (pkg_response.InternalServerError "Failed to fetch user")
  | Ok user => ret (pkg_response.Success (pkg_response.User user))
  end.

Definition Update (c : fiber.Ctx) : M S pkg_response.Reply :=
  let id := fiber.Params c "id" in
  match BodyParser_Update (fiber.Body c) with
  | Err _ => ret (pkg_response.BadRequest "Invalid request body")
  | Ok input =>
      let errs := validator.Validate Struct_Update input in
      if 0 <? len errs then ret (pkg_response.ValidationError errs)
      else
        updated <- userService_Update id input ;;
        match updated with
        | Err err =>
            if errors.Is err ErrUserNotFound then
              ret (pkg_response.NotFound (Error err))
            else ret (pkg_response.InternalServerError "Failed to update user")
        | Ok user => ret (pkg_response.Success (pkg_response.User user))
        end
  end.

Definition Delete (c : fiber.Ctx) : M S pkg_response.Reply :=
  let id := fiber.Params c "id" in
  err <- userService_Delete id ;;
  match err with
  | Some err =>
      if errors.Is err ErrUserNotFound then
        ret (pkg_response.NotFound (Error err))
      else ret (pkg_response.InternalServerError "Failed to delete user")
  | None => ret pkg_response.NoContent
  end.
End UserHandler.
End user_handler.

(** ** internal/handler: the auth endpoints *)

Module auth_handler.
Section AuthHandler.
Context {S : Type}.
Variable BodyParser : string -> result service.LoginInput.t.
Variable Struct : service.LoginInput.t -> list validator.FieldError.t.
(** The receiver's field, the [AuthService] interface. *)
Variable authService_Login :
  service.LoginInput.t -> M S (result service.AuthResponse.t).

Definition Login (c : fiber.Ctx) : M S pkg_response.Reply :=
  match BodyParser (fiber.Body c) with
  | Err _ => ret (pkg_response.BadRequest "Invalid request body")
  | Ok input =>
      let errs := validator.Validate Struct input in
      if 0 <? len errs then ret (pkg_response.ValidationError errs)
      else
        result <- authService_Login input ;;
        match result with
        | Err err =>
            if errors.Is err ErrInvalidCredentials then
              ret (pkg_response.Unauthorized "Invalid email or password")
            else ret (pkg_response.InternalServerError "Login failed")
        | Ok result => ret (pkg_response.Success (pkg_response.Auth result))
        end
  end.

Definition Me (c : fiber.Ctx) : M S pkg_response.Reply :=
  ret (pkg_response.Success
         (pkg_response.Map
            [("user_id"%string, fiber.Locals c "user_id");
             ("email"%string, fiber.Locals c "email");
             ("role"%string, fiber.Locals c "role")])).
End AuthHandler.
End auth_handler.

(** ** internal/router: the routes of [Setup] *)

Module router.
Section Setup.
Context {S : Type}.
Variable crypt : bcrypt.Package S.
Variable userRepo : repository.UserRepository S.
Variable jwtManager_Generate :
  string -> string -> string -> M S (result jwt.Token).
Variable jwtManager_Validate : string -> M S (result jwt.Claims).
Variable Error : error -> string.
Variable BodyParser_Login : string -> result service.LoginInput.t.
Variable BodyParser_Create : string -> result service.CreateUserInput.t.
Variable BodyParser_Update : string -> result service.UpdateUserInput.t.
Variable Struct_Login : service.LoginInput.t -> list validator.FieldError.t.
Variable Struct_Create :
  service.CreateUserInput.t -> list validator.FieldError.t.
Variable Struct_Update :
  service.UpdateUserInput.t -> list validator.FieldError.t.

(** POST /api/v1/auth/login *)
Definition auth_login : fiber.Ctx -> M S pkg_response.Reply :=
  auth_handler.Login BodyParser_Login Struct_Login
    (service.Login crypt userRepo jwtManager_Generate).

(** GET /api/v1/auth/me *)
Definition auth_me : fiber.Ctx -> M S pkg_response.Reply :=
  middleware.Auth jwtManager_Validate Error auth_handler.Me.

(** POST /api/v1/users/ *)
Definition users_create : fiber.Ctx -> M S pkg_response.Reply :=
  user_handler.Create BodyParser_Create Struct_Create Error
    (service.Create crypt userRepo).

(** GET /api/v1/users/:id *)
Definition users_find : fiber.Ctx -> M S pkg_response.Reply :=
  middleware.Auth jwtManager_Validate Error
    (user_handler.FindByID Error (service.FindByID userRepo)).

(** PUT /api/v1/users/:id *)
Definition users_update : fiber.Ctx -> M S pkg_response.Reply :=
  middleware.Auth jwtManager_Validate Error
    (user_handler.Update BodyParser_Update Struct_Update Error
       (service.Update userRepo)).

(** DELETE /api/v1/users/:id *)
Definition users_delete : fiber.Ctx -> M S pkg_response.Reply :=
  middleware.Auth jwtManager_Validate Error
    (middleware.RoleRequired ["admin"%string]
       (user_handler.Delete Error (service.Delete userRepo))).
End Setup.
End router.

(** ** A recording double for the gorm handle *)

Module sqlmock.
Inductive Query : Type :=
| QCreate
| QFirst (col arg : string)
| QCount
| QFind (offset limit : Z)
| QSave
| QDelete (col arg : string).

Definition Ran {S A : Type} (q : Query) (m : M S A) : M (S * list Query) A :=
  fun w => let (a, st') := m (fst w) in (a, (st', (snd w ++ [q])%list)).

Definition DB {T S : Type} (db : gorm.DB T S) : gorm.DB T (S * list Query) :=
  {| gorm.Create := fun entity => Ran QCreate (gorm.Create db entity);
     gorm.First := fun col arg => Ran (QFirst col arg) (gorm.First db col arg);
     gorm.Count := Ran QCount (gorm.Count db);
     gorm.Find := fun offset limit =>
       Ran (QFind offset limit) (gorm.Find db offset limit);
     gorm.Save := fun entity => Ran QSave (gorm.Save db entity);
     gorm.Delete := fun col arg =>
       Ran (QDelete col arg) (gorm.Delete db col arg) |}.

(** The queries an operation ran when started with an empty record. *)
Definition queries {S A : Type} (m : M (S * list Query) A) (st : S)
  : list Query :=
  snd (snd (m (st, []))).
End sqlmock.

(** ** Stand-ins for the delivery layer's collaborators *)

Module stub.
Fixpoint Error (e : error) : string :=
  match e with
  | ErrRecordNotFound => "record not found"%string
  | ErrUserNotFound => "user not found"%string
  | ErrEmailAlreadyExists => "email already exists"%string
  | ErrInvalidCredentials => "invalid credentials"%string
  | ErrInvalidToken => "invalid token"%string
  | New msg => msg
  | Wrap msg inner => String.append msg (String.append ": " (Error inner))
  end.

(** A body is taken to be the email itself; one text does not parse. *)
Definition BodyParser_Login (body : string) : result service.LoginInput.t :=
  if String.eqb body "invalid json" then Err (New "invalid character 'i'")
  else Ok {| service.LoginInput.Email := body;
             service.LoginInput.Password := "correct horse" |}.

Definition BodyParser_Create (body : string)
  : result service.CreateUserInput.t :=
  if String.eqb body "invalid json" then Err (New "invalid character 'i'")
  else Ok {| service.CreateUserInput.Name := "Carol";
             service.CreateUserInput.Email := body;
             service.CreateUserInput.Password := "password123" |}.

Definition BodyParser_Update (body : string)
  : result service.UpdateUserInput.t :=
  if String.eqb body "invalid json" then Err (New "invalid character 'i'")
  else Ok {| service.UpdateUserInput.Name := body |}.

Definition Struct_Login (input : service.LoginInput.t)
  : list validator.FieldError.t :=
  if String.eqb (service.LoginInput.Email input) "" then
    [{| validator.FieldError.Field := "email";
        validator.FieldError.Tag := "required";
        validator.FieldError.Param := "" |}]
  else [].

Definition Struct_Create (input : service.CreateUserInput.t)
  : list validator.FieldError.t :=
  if String.eqb (service.CreateUserInput.Email input) "" then
    [{| validator.FieldError.Field := "email";
        validator.FieldError.Tag := "required";
        validator.FieldError.Param := "" |}]
  else [].

Definition Struct_Update (input : service.UpdateUserInput.t)
  : list validator.FieldError.t :=
  if String.eqb (service.UpdateUserInput.Name input) "x" then
    [{| validator.FieldError.Field := "name";
        validator.FieldError.Tag := "min";
        validator.FieldError.Param := "2" |}]
  else [].

(** Two tokens are known: Alice's (an admin) and Bob's (a user). *)
Definition Validate (token : string) : M memdb.state (result jwt.Claims) :=
  fun st =>
    (if String.eqb token "alice-token" then
       Ok {| jwt.UserID := "a1"; jwt.Email := "alice@example.com";
             jwt.Role := "admin"; jwt.IssuedAt := 0; jwt.ExpiresAt := 86400 |}
     else if String.eqb token "bob-token" then
       Ok {| jwt.UserID := "b2"; jwt.Email := "bob@example.com";
             jwt.Role := "user"; jwt.IssuedAt := 0; jwt.ExpiresAt := 86400 |}
     else Err ErrInvalidToken, st).

(** A bcrypt whose hashing refuses every password. *)
Definition crypt_too_long : bcrypt.Package memdb.state :=
  {| bcrypt.GenerateFromPassword := fun _ _ st =>
       (Err (New "bcrypt: password length exceeds 72 bytes"), st);
     bcrypt.CompareHashAndPassword :=
       bcrypt.CompareHashAndPassword memdb.crypt |}.

Definition request (authorization id body : string) : fiber.Ctx :=
  {| fiber.Get := fun key =>
       if String.eqb key "Authorization" then authorization else EmptyString;
     fiber.Params := fun key =>
       if String.eqb key "id" then id else EmptyString;
     fiber.Body := body;
     fiber.locals := [] |}.

Definition Getenv (key : string) : string :=
  if String.eqb key "APP_PORT" then "8080"
  else if String.eqb key "JWT_EXPIRE_HOURS" then "a day"
  else EmptyString.

Definition Atoi (s : string) : result Z :=
  if String.eqb s "24" then Ok 24
  else if String.eqb s "8080" then Ok 8080
  else Err (New "strconv.Atoi: parsing: invalid syntax").
(** The page query fails. *)
Definition find_down : memdb.state :=
  {| memdb.rows := [memdb.alice; memdb.bob]; memdb.lookup_error := None;
     memdb.count_error := None;
     memdb.find_error := Some (New "pq: canceling statement due to user request");
     memdb.write_error := None; memdb.clock := 1000 |}.
End stub.

(** The entry [Validate] makes for one failed rule. *)
Definition toErrorResponse (err : validator.FieldError.t)
  : validator.ErrorResponse.t :=
  {| validator.ErrorResponse.Field := validator.FieldError.Field err;
     validator.ErrorResponse.Tag := validator.FieldError.Tag err;
     validator.ErrorResponse.Message := validator.generateMessage err |}.

(** ** Vocabulary of the specification *)

(** Two stored users that differ at most in their password hash. *)
Definition same_but_Password (u1 u2 : User) : Prop :=
  base u1 = base u2 /\ Name u1 = Name u2 /\ Email u1 = Email u2
  /\ Role u1 = Role u2 /\ IsActive u1 = IsActive u2.

Definition with_Password (u : User) (hash : string) : User :=
  {| base := base u; Name := Name u; Email := Email u; Password := hash;
     Role := Role u; IsActive := IsActive u |}.

(** * Properties *)

Import service.

(** ** Running the model *)

Lemma bind_run {S A B : Type} (c : M S A) (k : A -> M S B) (st : S) :
  bind c k st = k (fst (c st)) (snd (c st)).
Proof. unfold bind. destruct (c st); reflexivity. Qed.

Lemma Called_run {S A : Type} (c : mock.Call) (m : M S A) (st : S)
  (log : list mock.Call) :
  mock.Called c m (st, log) = (fst (m st), (snd (m st), (log ++ [c])%list)).
Proof. unfold mock.Called; simpl. destruct (m st); reflexivity. Qed.

#[local] Ltac run :=
  unfold mock.calls, mock.answer, mock.world;
  repeat (rewrite ?bind_run; cbn [mock.UserRepository mock.Bcrypt
            repository.FindByID repository.FindByEmail repository.FindAll
            repository.Create repository.Update repository.Delete
            bcrypt.GenerateFromPassword bcrypt.CompareHashAndPassword];
          rewrite ?Called_run; cbn [fst snd ret app]).

(** ** errors.Is *)

Lemma Is_refl (e : error) : errors.Is e e = true.
Proof.
  destruct e; cbn [errors.Is]; unfold error_eqb;
    destruct (error_eq_dec _ _); try reflexivity; congruence.
Qed.

(** A wrapped gorm.ErrRecordNotFound is still recognised. *)
Lemma Is_Wrap (msg : string) (e target : error) :
  errors.Is e target = true -> errors.Is (Wrap msg e) target = true.
Proof. intros H. cbn [errors.Is]. rewrite H. apply orb_true_r. Qed.

(** ** Pagination (C1) *)

Lemma service_FindAll_calls {S : Type} (R : repository.UserRepository S)
  (st : S) (page perPage : Z) :
  mock.calls (FindAll (mock.UserRepository R) page perPage) st
  = [mock.CallFindAll page perPage].
Proof.
  unfold FindAll. run.
  destruct (repository.FindAll R page perPage st) as [[[users total] [err|]] st'];
    reflexivity.
Qed.

(** C1, as stated, fails: asked for page 0 with 150 per page, the service's
    FindAll hands exactly 0 and 150 to the store, not 1 and 10. *)
Lemma service_FindAll_does_not_normalize :
  mock.calls (FindAll (mock.UserRepository memdb.repo) 0 150) memdb.healthy
    = [mock.CallFindAll 0 150]
  /\ [mock.CallFindAll 0 150] <> [mock.CallFindAll 1 10].
Proof. split; [reflexivity | discriminate]. Qed.

(** C1, amended: the normalisation is done by the handler.  For every page and
    per_page that reach UserHandler.FindAll, the service, and through it the
    store, is called once, with page 1 when page < 1 and the page itself
    otherwise, and with per_page 10 when per_page < 1 or per_page > 100 and
    per_page itself when it lies in [1,100]; the service's FindAll passes
    what it is given to the store unchanged. *)
Theorem handler_FindAll_normalizes_before_the_store :
  forall (S : Type) (R : repository.UserRepository S) (st : S)
         (page perPage : Z),
    (exists page' perPage',
        mock.calls (handler.FindAll (FindAll (mock.UserRepository R))
                      page perPage) st
        = [mock.CallFindAll page' perPage']
        /\ (page < 1 -> page' = 1)
        /\ (1 <= page -> page' = page)
        /\ (perPage < 1 \/ 100 < perPage -> perPage' = 10)
        /\ (1 <= perPage <= 100 -> perPage' = perPage))
    /\ mock.calls (FindAll (mock.UserRepository R) page perPage) st
       = [mock.CallFindAll page perPage].
Proof.
  intros S R st page perPage. split; [| apply service_FindAll_calls].
  exists (if page <? 1 then 1 else page),
         (if (perPage <? 1) || (100 <? perPage) then 10 else perPage).
  split.
  - unfold handler.FindAll.
    set (p := if page <? 1 then 1 else page).
    set (pp := if (perPage <? 1) || (100 <? perPage) then 10 else perPage).
    pose proof (service_FindAll_calls R st p pp) as Hc.
    unfold mock.calls in *. rewrite bind_run.
    destruct (FindAll (mock.UserRepository R) p pp (st, []))
      as [[[users total] [err|]] w]; cbn [fst snd ret] in *; exact Hc.
  - repeat split; intros H.
    + apply Z.ltb_lt in H. now rewrite H.
    + destruct (Z.ltb_spec page 1); [lia | reflexivity].
    + destruct (Z.ltb_spec perPage 1), (Z.ltb_spec 100 perPage);
        cbn [orb]; try reflexivity; lia.
    + destruct (Z.ltb_spec perPage 1), (Z.ltb_spec 100 perPage);
        cbn [orb]; try reflexivity; lia.
Qed.

Lemma handler_FindAll_normalizes_before_the_store_witness :
  exists page' perPage',
    mock.calls (handler.FindAll (FindAll (mock.UserRepository memdb.repo))
                  0 150) memdb.healthy
    = [mock.CallFindAll page' perPage'] /\ page' = 1 /\ perPage' = 10.
Proof.
  destruct (handler_FindAll_normalizes_before_the_store
              memdb.state memdb.repo memdb.healthy 0 150)
    as [[page' [perPage' [Hc [Hp [_ [Hpp _]]]]]] _].
  exists page', perPage'. split; [exact Hc | split].
  - apply Hp. lia.
  - apply Hpp. right. lia.
Defined.

(** ** Create (C2, C7) *)

Section Create_facts.
Context {S : Type}.
Variable crypt : bcrypt.Package S.
Variable R : repository.UserRepository S.

(** What Create does once the look-up has come back without a user: it goes
    on to hash the password, whatever the look-up's error was. *)
Lemma Create_after_failed_lookup (st : S) (input : CreateUserInput.t)
  (e : error) :
  fst (repository.FindByEmail R (CreateUserInput.Email input) st) = Err e ->
  exists rest,
    mock.calls (Create (mock.Bcrypt crypt) (mock.UserRepository R) input) st
    = mock.CallFindByEmail (CreateUserInput.Email input)
      :: mock.CallGenerateFromPassword (CreateUserInput.Password input)
      :: rest.
Proof.
  intros Hlookup. unfold Create. run. rewrite Hlookup. run.
  destruct (fst (bcrypt.GenerateFromPassword crypt _ _ _)) as [hashed|err].
  - run.
    match goal with
    | |- context [repository.Create R ?u ?s] =>
        destruct (repository.Create R u s) as [[u' [err|]] s']
    end; cbn [fst snd ret]; eexists; reflexivity.
  - eexists; reflexivity.
Qed.

Lemma Create_after_successful_lookup (st : S) (input : CreateUserInput.t)
  (u : User) :
  fst (repository.FindByEmail R (CreateUserInput.Email input) st) = Ok u ->
  Create (mock.Bcrypt crypt) (mock.UserRepository R) input (st, [])
  = (Err ErrEmailAlreadyExists,
     (snd (repository.FindByEmail R (CreateUserInput.Email input) st),
      [mock.CallFindByEmail (CreateUserInput.Email input)])).
Proof. intros Hlookup. unfold Create. run. rewrite Hlookup. reflexivity. Qed.
End Create_facts.

(** C2 at its failing input: the backend refuses look-ups ("connection
    refused"), yet Create for a new address does not return that error: it
    hashes the password, calls the store's Create and answers with the new
    user. *)
Theorem Create_swallows_the_lookup_error :
  fst (repository.FindByEmail memdb.repo "carol@example.com" memdb.lookups_down)
    = Err (New "dial tcp 127.0.0.1:5432: connection refused")
  /\ mock.answer
       (Create (mock.Bcrypt memdb.crypt) (mock.UserRepository memdb.repo)
          {| CreateUserInput.Name := "Carol";
             CreateUserInput.Email := "carol@example.com";
             CreateUserInput.Password := "password123" |})
       memdb.lookups_down
     = Ok {| UserResponse.ID := "id-of-carol@example.com";
             UserResponse.Name := "Carol";
             UserResponse.Email := "carol@example.com";
             UserResponse.Role := "user";
             UserResponse.IsActive := true |}
  /\ mock.calls
       (Create (mock.Bcrypt memdb.crypt) (mock.UserRepository memdb.repo)
          {| CreateUserInput.Name := "Carol";
             CreateUserInput.Email := "carol@example.com";
             CreateUserInput.Password := "password123" |})
       memdb.lookups_down
     = [mock.CallFindByEmail "carol@example.com";
        mock.CallGenerateFromPassword "password123";
        mock.CallCreate
          {| base := zeroBase; Name := "Carol";
             Email := "carol@example.com";
             Password := "$2a$password123";
             Role := "user"; IsActive := true |}].
Proof. split; [reflexivity | split; reflexivity]. Qed.

(** C7: when the uniqueness look-up finds a user, Create fails with
    ErrEmailAlreadyExists; the look-up is the only call it makes on the store
    (no hashing, no persist call), and the world is left as the look-up left
    it. *)
Theorem Create_existing_email_no_persist :
  forall (S : Type) (crypt : bcrypt.Package S)
         (R : repository.UserRepository S) (st : S)
         (input : CreateUserInput.t) (existing : User),
    fst (repository.FindByEmail R (CreateUserInput.Email input) st)
      = Ok existing ->
    mock.answer
      (Create (mock.Bcrypt crypt) (mock.UserRepository R) input) st
    = Err ErrEmailAlreadyExists
    /\ mock.calls
         (Create (mock.Bcrypt crypt) (mock.UserRepository R) input) st
       = [mock.CallFindByEmail (CreateUserInput.Email input)]
    /\ mock.world
         (Create (mock.Bcrypt crypt) (mock.UserRepository R) input) st
       = snd (repository.FindByEmail R (CreateUserInput.Email input) st).
Proof.
  intros S crypt R st input existing Hlookup.
  unfold mock.answer, mock.calls, mock.world.
  rewrite (Create_after_successful_lookup crypt R st input existing Hlookup).
  split; [reflexivity | split; reflexivity].
Qed.

Lemma Create_existing_email_no_persist_witness :
  mock.answer
    (Create (mock.Bcrypt memdb.crypt) (mock.UserRepository memdb.repo)
       {| CreateUserInput.Name := "Alice again";
          CreateUserInput.Email := "alice@example.com";
          CreateUserInput.Password := "password123" |}) memdb.healthy
  = Err ErrEmailAlreadyExists
  /\ mock.calls
       (Create (mock.Bcrypt memdb.crypt) (mock.UserRepository memdb.repo)
          {| CreateUserInput.Name := "Alice again";
             CreateUserInput.Email := "alice@example.com";
             CreateUserInput.Password := "password123" |}) memdb.healthy
     = [mock.CallFindByEmail "alice@example.com"]
  /\ mock.world
       (Create (mock.Bcrypt memdb.crypt) (mock.UserRepository memdb.repo)
          {| CreateUserInput.Name := "Alice again";
             CreateUserInput.Email := "alice@example.com";
             CreateUserInput.Password := "password123" |}) memdb.healthy
     = memdb.healthy.
Proof.
  exact (Create_existing_email_no_persist memdb.state memdb.crypt memdb.repo
           memdb.healthy
           {| CreateUserInput.Name := "Alice again";
              CreateUserInput.Email := "alice@example.com";
              CreateUserInput.Password := "password123" |}
           memdb.alice eq_refl).
Defined.

(** ** FindByID, Update, Delete (C5, C6) *)

(** C5: when the store's FindByID reports "record not found" for an id (the
    gorm sentinel, bare or wrapped), FindByID, Update and Delete all fail
    with ErrUserNotFound, and Delete's only call on the store is that
    look-up: no delete call is made. *)
Theorem absent_id_is_ErrUserNotFound :
  forall (S : Type) (R : repository.UserRepository S) (st : S)
         (id : string) (input : UpdateUserInput.t) (e : error),
    fst (repository.FindByID R id st) = Err e ->
    errors.Is e ErrRecordNotFound = true ->
    mock.answer (FindByID (mock.UserRepository R) id) st = Err ErrUserNotFound
    /\ mock.answer (Update (mock.UserRepository R) id input) st
       = Err ErrUserNotFound
    /\ mock.answer (Delete (mock.UserRepository R) id) st
       = Some ErrUserNotFound
    /\ mock.calls (Delete (mock.UserRepository R) id) st
       = [mock.CallFindByID id].
Proof.
  intros S R st id input e Hlookup Hnotfound.
  unfold FindByID, Update, Delete. run.
  rewrite Hlookup, Hnotfound. repeat split.
Qed.

Lemma absent_id_is_ErrUserNotFound_witness :
  mock.answer (FindByID (mock.UserRepository memdb.repo) "invalid-id")
    memdb.healthy = Err ErrUserNotFound
  /\ mock.answer (Update (mock.UserRepository memdb.repo) "invalid-id"
                    {| UpdateUserInput.Name := "Nobody" |})
       memdb.healthy = Err ErrUserNotFound
  /\ mock.answer (Delete (mock.UserRepository memdb.repo) "invalid-id")
       memdb.healthy = Some ErrUserNotFound
  /\ mock.calls (Delete (mock.UserRepository memdb.repo) "invalid-id")
       memdb.healthy = [mock.CallFindByID "invalid-id"].
Proof.
  exact (absent_id_is_ErrUserNotFound memdb.state memdb.repo memdb.healthy
           "invalid-id" {| UpdateUserInput.Name := "Nobody" |}
           ErrRecordNotFound eq_refl eq_refl).
Defined.

(** C6: for a user the store finds, Update makes exactly two calls, the
    look-up and one Update of the store; the user it hands to the store has
    the found user's name when the given name is empty and the given name
    otherwise, and the found user's base (id, timestamps), email, password
    hash, role and is_active in both cases. *)
Theorem Update_changes_the_name_only :
  forall (S : Type) (R : repository.UserRepository S) (st : S)
         (id : string) (input : UpdateUserInput.t) (found : User),
    fst (repository.FindByID R id st) = Ok found ->
    exists persisted,
      mock.calls (Update (mock.UserRepository R) id input) st
      = [mock.CallFindByID id; mock.CallUpdate persisted]
      /\ Name persisted
         = (if String.eqb (UpdateUserInput.Name input) "" then Name found
            else UpdateUserInput.Name input)
      /\ base persisted = base found
      /\ Email persisted = Email found
      /\ Password persisted = Password found
      /\ Role persisted = Role found
      /\ IsActive persisted = IsActive found.
Proof.
  intros S R st id input found Hlookup.
  unfold Update. run. rewrite Hlookup. run.
  destruct (String.eqb (UpdateUserInput.Name input) "") eqn:Hname;
    cbn [negb];
    match goal with
    | |- context [repository.Update R ?u ?s] =>
        exists u; destruct (repository.Update R u s) as [[u' [err|]] s']
    end; cbn [fst snd ret app]; repeat split.
Qed.

Lemma Update_changes_the_name_only_witness :
  exists persisted,
    mock.calls (Update (mock.UserRepository memdb.repo) "a1"
                  {| UpdateUserInput.Name := "" |}) memdb.healthy
    = [mock.CallFindByID "a1"; mock.CallUpdate persisted]
    /\ persisted = memdb.alice.
Proof.
  destruct (Update_changes_the_name_only memdb.state memdb.repo memdb.healthy
              "a1" {| UpdateUserInput.Name := "" |} memdb.alice eq_refl)
    as [persisted [Hcalls _]].
  exists persisted. split; [exact Hcalls |].
  cbv in Hcalls. now inversion Hcalls.
Defined.

(** ** Login (C3, C4) *)

Section Login_facts.
Context {S : Type}.
Variable crypt : bcrypt.Package S.
Variable R : repository.UserRepository S.
Variable Generate : string -> string -> string -> M S (result jwt.Token).

Lemma Login_after_failed_lookup (st : S) (input : LoginInput.t) (e : error) :
  fst (repository.FindByEmail R (LoginInput.Email input) st) = Err e ->
  Login (mock.Bcrypt crypt) (mock.UserRepository R)
    (fun userID email role => mock.Untracked (Generate userID email role))
    input (st, [])
  = (Err ErrInvalidCredentials,
     (snd (repository.FindByEmail R (LoginInput.Email input) st),
      [mock.CallFindByEmail (LoginInput.Email input)])).
Proof. intros Hlookup. unfold Login. run. rewrite Hlookup. reflexivity. Qed.

Lemma Login_lookup_error (st : S) (input : LoginInput.t) (e : error) :
  fst (repository.FindByEmail R (LoginInput.Email input) st) = Err e ->
  fst (Login crypt R Generate input st) = Err ErrInvalidCredentials.
Proof. intros Hlookup. unfold Login. run. rewrite Hlookup. reflexivity. Qed.

Lemma Login_wrong_password (st : S) (input : LoginInput.t) (u : User) :
  fst (repository.FindByEmail R (LoginInput.Email input) st) = Ok u ->
  bcrypt.CompareHashAndPassword crypt (Password u) (LoginInput.Password input)
    <> None ->
  fst (Login crypt R Generate input st) = Err ErrInvalidCredentials.
Proof.
  intros Hlookup Hmismatch. unfold Login. run. rewrite Hlookup.
  destruct (bcrypt.CompareHashAndPassword crypt _ _); [reflexivity | congruence].
Qed.

Lemma Login_inactive (st : S) (input : LoginInput.t) (u : User) :
  fst (repository.FindByEmail R (LoginInput.Email input) st) = Ok u ->
  IsActive u = false ->
  fst (Login crypt R Generate input st) = Err ErrInvalidCredentials.
Proof.
  intros Hlookup Hinactive. unfold Login. run. rewrite Hlookup, Hinactive.
  destruct (bcrypt.CompareHashAndPassword crypt _ _); reflexivity.
Qed.

(** The one failure Login hands on as it is: that of issuing the token. *)
Lemma Login_Generate_error (st : S) (input : LoginInput.t) (u : User)
  (e : error) :
  fst (repository.FindByEmail R (LoginInput.Email input) st) = Ok u ->
  bcrypt.CompareHashAndPassword crypt (Password u) (LoginInput.Password input)
    = None ->
  IsActive u = true ->
  fst (Generate (uuid.String (ID (base u))) (Email u) (Role u)
         (snd (repository.FindByEmail R (LoginInput.Email input) st)))
    = Err e ->
  fst (Login crypt R Generate input st) = Err e.
Proof.
  intros Hlookup Hmatch Hactive Hgen. unfold Login. run.
  rewrite Hlookup, Hmatch, Hactive. cbn [negb]. run. rewrite Hgen. reflexivity.
Qed.
End Login_facts.

(** C3 at its failing input: the backend refuses look-ups ("connection
    refused", which is not "record not found"), and Login with Alice's right
    password does not return that infrastructure error: it answers
    ErrInvalidCredentials, a different value, after the look-up as its only
    call.  On the same backend the sibling FindByID returns the look-up's
    error as it is. *)
Theorem Login_hides_the_backend_failure :
  fst (repository.FindByEmail memdb.repo "alice@example.com" memdb.lookups_down)
    = Err (New "dial tcp 127.0.0.1:5432: connection refused")
  /\ errors.Is (New "dial tcp 127.0.0.1:5432: connection refused")
       ErrRecordNotFound = false
  /\ fst (Login memdb.crypt memdb.repo memdb.Generate
            {| LoginInput.Email := "alice@example.com";
               LoginInput.Password := "correct horse" |} memdb.lookups_down)
     = Err ErrInvalidCredentials
  /\ @Err AuthResponse.t ErrInvalidCredentials
     <> Err (New "dial tcp 127.0.0.1:5432: connection refused")
  /\ mock.calls
       (Login (mock.Bcrypt memdb.crypt) (mock.UserRepository memdb.repo)
          (fun userID email role =>
             mock.Untracked (memdb.Generate userID email role))
          {| LoginInput.Email := "alice@example.com";
             LoginInput.Password := "correct horse" |}) memdb.lookups_down
     = [mock.CallFindByEmail "alice@example.com"]
  /\ fst (FindByID memdb.repo "a1" memdb.lookups_down)
     = Err (New "dial tcp 127.0.0.1:5432: connection refused").
Proof.
  split; [reflexivity |]. split; [reflexivity |]. split; [reflexivity |].
  split; [discriminate |]. split; reflexivity.
Qed.

(** C4: Login fails with the one value ErrInvalidCredentials in each of the
    three cases: the look-up reports that no user has the email, the user
    exists but the password does not match the stored hash, the user exists
    but is not active.  The caller gets equal error values in all three. *)
Theorem Login_failures_are_indistinguishable :
  forall (S : Type) (crypt : bcrypt.Package S)
         (R : repository.UserRepository S)
         (Generate : string -> string -> string -> M S (result jwt.Token))
         (st : S) (input : LoginInput.t),
    (exists e,
        fst (repository.FindByEmail R (LoginInput.Email input) st) = Err e
        /\ errors.Is e ErrRecordNotFound = true)
    \/ (exists u,
           fst (repository.FindByEmail R (LoginInput.Email input) st) = Ok u
           /\ bcrypt.CompareHashAndPassword crypt (Password u)
                (LoginInput.Password input) <> None)
    \/ (exists u,
           fst (repository.FindByEmail R (LoginInput.Email input) st) = Ok u
           /\ IsActive u = false) ->
    fst (Login crypt R Generate input st) = Err ErrInvalidCredentials.
Proof.
  intros S crypt R Generate st input [[e [Hl _]] | [[u [Hl Hp]] | [u [Hl Ha]]]].
  - eapply Login_lookup_error; eassumption.
  - eapply Login_wrong_password; eassumption.
  - eapply Login_inactive; eassumption.
Qed.

Lemma Login_failures_are_indistinguishable_witness :
  fst (Login memdb.crypt memdb.repo memdb.Generate
         {| LoginInput.Email := "nobody@example.com";
            LoginInput.Password := "correct horse" |} memdb.healthy)
  = Err ErrInvalidCredentials
  /\ fst (Login memdb.crypt memdb.repo memdb.Generate
            {| LoginInput.Email := "alice@example.com";
               LoginInput.Password := "wrong" |} memdb.healthy)
     = Err ErrInvalidCredentials
  /\ fst (Login memdb.crypt memdb.repo memdb.Generate
            {| LoginInput.Email := "bob@example.com";
               LoginInput.Password := "battery staple" |} memdb.healthy)
     = Err ErrInvalidCredentials.
Proof.
  split; [| split]; apply Login_failures_are_indistinguishable.
  - left. exists ErrRecordNotFound. split; reflexivity.
  - right; left. exists memdb.alice. split; [reflexivity | discriminate].
  - right; right. exists memdb.bob. split; reflexivity.
Defined.

(** ** What leaves the service (C8) *)

Lemma toUserResponse_ignores_Password (u1 u2 : User) :
  same_but_Password u1 u2 -> toUserResponse u1 = toUserResponse u2.
Proof.
  intros (Hbase & Hname & Hemail & Hrole & Hactive).
  unfold toUserResponse. now rewrite Hbase, Hname, Hemail, Hrole, Hactive.
Qed.

Section responses.
Context {S : Type}.
Variable crypt : bcrypt.Package S.
Variable R : repository.UserRepository S.
Variable Generate : string -> string -> string -> M S (result jwt.Token).

Lemma FindByID_response (st : S) (id : string) (r : UserResponse.t) :
  fst (FindByID R id st) = Ok r ->
  exists u, fst (repository.FindByID R id st) = Ok u /\ r = toUserResponse u.
Proof.
  unfold FindByID. run.
  destruct (fst (repository.FindByID R id st)) as [u|e].
  - cbn [fst ret]. intros [= <-]. now exists u.
  - destruct (errors.Is e ErrRecordNotFound); cbn [fst ret]; discriminate.
Qed.

Lemma FindAll_response (st : S) (page perPage : Z) :
  snd (fst (FindAll R page perPage st)) = None ->
  fst (fst (fst (FindAll R page perPage st)))
  = map toUserResponse (fst (fst (fst (repository.FindAll R page perPage st)))).
Proof.
  unfold FindAll. run.
  destruct (fst (repository.FindAll R page perPage st)) as [[users total] [e|]];
    cbn [fst snd ret]; [discriminate | reflexivity].
Qed.

Lemma Update_response (st : S) (id : string) (input : UpdateUserInput.t)
  (r : UserResponse.t) :
  fst (Update R id input st) = Ok r ->
  exists found,
    fst (repository.FindByID R id st) = Ok found
    /\ r = toUserResponse
             (fst (fst (repository.Update R
                          (if negb (String.eqb (UpdateUserInput.Name input) "")
                           then {| base := base found;
                                   Name := UpdateUserInput.Name input;
                                   Email := Email found;
                                   Password := Password found;
                                   Role := Role found;
                                   IsActive := IsActive found |}
                           else found)
                          (snd (repository.FindByID R id st))))).
Proof.
  unfold Update. run.
  destruct (fst (repository.FindByID R id st)) as [found|e].
  - run.
    match goal with
    | |- context [repository.Update R ?u ?s] =>
        destruct (repository.Update R u s) as [[u' [err|]] s'] eqn:Hupd;
        cbn [fst snd ret]; [discriminate |];
        intros [= <-]; exists found; rewrite Hupd
    end.
    split; reflexivity.
  - destruct (errors.Is e ErrRecordNotFound); cbn [fst ret]; discriminate.
Qed.

Lemma Create_response (st : S) (input : CreateUserInput.t)
  (r : UserResponse.t) :
  fst (Create crypt R input st) = Ok r ->
  exists hashed,
    fst (bcrypt.GenerateFromPassword crypt (CreateUserInput.Password input)
           bcrypt.DefaultCost
           (snd (repository.FindByEmail R (CreateUserInput.Email input) st)))
      = Ok hashed
    /\ r = toUserResponse
             (fst (fst (repository.Create R
                          {| base := zeroBase;
                             Name := CreateUserInput.Name input;
                             Email := CreateUserInput.Email input;
                             Password := hashed;
                             Role := "user";
                             IsActive := true |}
                          (snd (bcrypt.GenerateFromPassword crypt
                                  (CreateUserInput.Password input)
                                  bcrypt.DefaultCost
                                  (snd (repository.FindByEmail R
                                          (CreateUserInput.Email input)
                                          st))))))).
Proof.
  unfold Create. run.
  destruct (fst (repository.FindByEmail R _ st)) as [u|e];
    cbn [fst ret]; [discriminate |]. run.
  destruct (fst (bcrypt.GenerateFromPassword crypt _ _ _)) as [hashed|e']
    eqn:Hhash; cbn [fst ret]; [| discriminate]. run.
  match goal with
  | |- context [repository.Create R ?u ?s] =>
      destruct (repository.Create R u s) as [[u' [err|]] s'] eqn:Hcre;
      cbn [fst snd ret]; [discriminate |];
      intros [= <-]; exists hashed; rewrite Hcre
  end.
  split; reflexivity.
Qed.

Lemma Login_response (st : S) (input : LoginInput.t) (a : AuthResponse.t) :
  fst (Login crypt R Generate input st) = Ok a ->
  exists u,
    fst (repository.FindByEmail R (LoginInput.Email input) st) = Ok u
    /\ AuthResponse.User a = toUserResponse u.
Proof.
  unfold Login. run.
  destruct (fst (repository.FindByEmail R _ st)) as [u|e];
    cbn [fst ret]; [| discriminate].
  destruct (bcrypt.CompareHashAndPassword crypt _ _);
    cbn [fst ret]; [discriminate |].
  destruct (IsActive u); cbn [negb fst ret]; [| discriminate]. run.
  destruct (fst (Generate _ _ _ _)) as [token|e];
    cbn [fst ret]; [| discriminate].
  intros [= <-]. now exists u.
Qed.
End responses.

(** C8: the password hash is never serialized outward.  A UserResponse is
    made of id, name, email, role and is_active and nothing else; two stored
    users that differ only in their password hash give the same
    UserResponse; and every UserResponse that Create, FindByID, FindAll,
    Update or Login return is toUserResponse of a user the store delivered:
    the user looked up (FindByID, Login), the users listed (FindAll), what
    the store's Create gave back for the new user with the hash bcrypt
    produced (Create), what the store's Update gave back for the found user
    with, at most, the name replaced (Update). *)
Theorem password_hash_is_never_serialized :
  (forall r : UserResponse.t,
      r = {| UserResponse.ID := UserResponse.ID r;
             UserResponse.Name := UserResponse.Name r;
             UserResponse.Email := UserResponse.Email r;
             UserResponse.Role := UserResponse.Role r;
             UserResponse.IsActive := UserResponse.IsActive r |})
  /\ (forall u1 u2 : User,
         same_but_Password u1 u2 -> toUserResponse u1 = toUserResponse u2)
  /\ (forall (S : Type) (crypt : bcrypt.Package S)
             (R : repository.UserRepository S)
             (Generate : string -> string -> string -> M S (result jwt.Token))
             (st : S),
         (forall input r,
             fst (Create crypt R input st) = Ok r ->
             exists hashed,
               fst (bcrypt.GenerateFromPassword crypt
                      (CreateUserInput.Password input) bcrypt.DefaultCost
                      (snd (repository.FindByEmail R
                              (CreateUserInput.Email input) st)))
                 = Ok hashed
               /\ r = toUserResponse
                        (fst (fst (repository.Create R
                                     {| base := zeroBase;
                                        Name := CreateUserInput.Name input;
                                        Email := CreateUserInput.Email input;
                                        Password := hashed;
                                        Role := "user";
                                        IsActive := true |}
                                     (snd (bcrypt.GenerateFromPassword crypt
                                             (CreateUserInput.Password input)
                                             bcrypt.DefaultCost
                                             (snd (repository.FindByEmail R
                                                     (CreateUserInput.Email
                                                        input) st))))))))
         /\ (forall id r,
                fst (FindByID R id st) = Ok r ->
                exists u,
                  fst (repository.FindByID R id st) = Ok u
                  /\ r = toUserResponse u)
         /\ (forall page perPage,
                snd (fst (FindAll R page perPage st)) = None ->
                fst (fst (fst (FindAll R page perPage st)))
                = map toUserResponse
                    (fst (fst (fst (repository.FindAll R page perPage st)))))
         /\ (forall id input r,
                fst (Update R id input st) = Ok r ->
                exists found,
                  fst (repository.FindByID R id st) = Ok found
                  /\ r = toUserResponse
                           (fst (fst (repository.Update R
                                        (if negb (String.eqb
                                                    (UpdateUserInput.Name input)
                                                    "")
                                         then {| base := base found;
                                                 Name :=
                                                   UpdateUserInput.Name input;
                                                 Email := Email found;
                                                 Password := Password found;
                                                 Role := Role found;
                                                 IsActive := IsActive found |}
                                         else found)
                                        (snd (repository.FindByID R id st))))))
         /\ (forall input a,
                fst (Login crypt R Generate input st) = Ok a ->
                exists u,
                  fst (repository.FindByEmail R (LoginInput.Email input) st)
                    = Ok u
                  /\ AuthResponse.User a = toUserResponse u)).
Proof.
  split; [intros []; reflexivity |].
  split; [exact toUserResponse_ignores_Password |].
  intros S crypt R Generate st. repeat split.
  - intros input r. apply Create_response.
  - intros id r. apply FindByID_response.
  - intros page perPage. apply FindAll_response.
  - intros id input r. apply Update_response.
  - intros input a. apply Login_response.
Qed.

Lemma password_hash_is_never_serialized_witness :
  same_but_Password memdb.alice (with_Password memdb.alice "$2a$something else")
  /\ toUserResponse memdb.alice
     = toUserResponse (with_Password memdb.alice "$2a$something else")
  /\ (exists u,
         fst (repository.FindByID memdb.repo "a1" memdb.healthy) = Ok u
         /\ toUserResponse memdb.alice = toUserResponse u)
  /\ (exists found,
         fst (repository.FindByID memdb.repo "a1" memdb.healthy) = Ok found
         /\ {| UserResponse.ID := "a1"; UserResponse.Name := "Alicia";
               UserResponse.Email := "alice@example.com";
               UserResponse.Role := "admin"; UserResponse.IsActive := true |}
            = toUserResponse
                (fst (fst (repository.Update memdb.repo
                             (if negb (String.eqb "Alicia" "")
                              then {| base := base found;
                                      Name := "Alicia";
                                      Email := Email found;
                                      Password := Password found;
                                      Role := Role found;
                                      IsActive := IsActive found |}
                              else found)
                             (snd (repository.FindByID memdb.repo "a1"
                                     memdb.healthy)))))).
Proof.
  assert (H : same_but_Password memdb.alice
                (with_Password memdb.alice "$2a$something else"))
    by (repeat split).
  destruct (proj2 (proj2 password_hash_is_never_serialized)
              memdb.state memdb.crypt memdb.repo memdb.Generate memdb.healthy)
    as (_ & HFindByID & _ & HUpdate & _).
  split; [exact H | split; [| split]].
  - exact (proj1 (proj2 password_hash_is_never_serialized) _ _ H).
  - exact (HFindByID "a1"%string (toUserResponse memdb.alice) eq_refl).
  - exact (HUpdate "a1"%string {| UpdateUserInput.Name := "Alicia" |}
             {| UserResponse.ID := "a1"; UserResponse.Name := "Alicia";
                UserResponse.Email := "alice@example.com";
                UserResponse.Role := "admin";
                UserResponse.IsActive := true |} eq_refl).
Defined.

(** ** Tokens (C9) *)

Section tokens.
Variable sign : string -> jwt.Claims -> result string.

(** A token stays valid for every instant before its expiry. *)
Lemma Validate_before_expiry (m : jwt.JWTManager) (now later : Z)
  (userID email role : string) (token : jwt.Token) :
  jwt.Generate sign m now userID email role = Ok token ->
  later < now + jwt.expireHours m * 3600 ->
  jwt.Validate sign m later token
  = Ok {| jwt.UserID := userID; jwt.Email := email; jwt.Role := role;
          jwt.IssuedAt := now;
          jwt.ExpiresAt := now + jwt.expireHours m * 3600 |}.
Proof.
  unfold jwt.Generate. intros Hgen Hlater.
  destruct (sign (jwt.secret m) _) as [signature|e] eqn:Hsign; [| discriminate].
  injection Hgen as <-. cbn [jwt.Validate]. rewrite Hsign.
  rewrite String.eqb_refl. cbn [negb jwt.ExpiresAt].
  destruct (Z.leb_spec (now + jwt.expireHours m * 3600) later);
    [lia | reflexivity].
Qed.
End tokens.

(** C9: for every ttl > 0, a token that Generate produced, passed at once to
    Validate of the same manager, is accepted, and the claims that come back
    carry the subject, email and role that were issued. *)
Theorem Generate_then_Validate :
  forall (sign : string -> jwt.Claims -> result string)
         (secret : string) (ttl now : Z) (userID email role : string)
         (token : jwt.Token),
    0 < ttl ->
    jwt.Generate sign (jwt.NewJWTManager secret ttl) now userID email role
      = Ok token ->
    exists claims,
      jwt.Validate sign (jwt.NewJWTManager secret ttl) now token = Ok claims
      /\ jwt.UserID claims = userID
      /\ jwt.Email claims = email
      /\ jwt.Role claims = role.
Proof.
  intros sign secret ttl now userID email role token Httl Hgen.
  eexists. split.
  - eapply Validate_before_expiry; [exact Hgen |].
    cbn [jwt.NewJWTManager jwt.expireHours]. lia.
  - repeat split.
Qed.

Lemma Generate_then_Validate_witness :
  exists token claims,
    jwt.Generate memdb.sign (jwt.NewJWTManager "test-secret-key-min-32-characters" 24)
      1000 "user-123" "test@example.com" "admin" = Ok token
    /\ jwt.Validate memdb.sign
         (jwt.NewJWTManager "test-secret-key-min-32-characters" 24) 1000 token
       = Ok claims
    /\ jwt.UserID claims = "user-123"%string
    /\ jwt.Email claims = "test@example.com"%string
    /\ jwt.Role claims = "admin"%string.
Proof.
  eexists.
  destruct (Generate_then_Validate memdb.sign
              "test-secret-key-min-32-characters" 24 1000
              "user-123" "test@example.com" "admin" _ eq_refl eq_refl)
    as [claims H].
  exists claims. split; [reflexivity | exact H].
Defined.

(** ** The generic store's FindAll (C10) *)

(** C10: BaseRepository.FindAll drops the count query's error.  Whenever the
    count fails and the page query succeeds, FindAll returns the page's
    items, a total of 0 and a nil error, for every page and per_page; and
    there is a run whose answer has a nil error, total 0 and two items. *)
Theorem FindAll_discards_the_count_error :
  (forall (T S : Type) (db : gorm.DB T S) (st st1 st2 : S)
          (page perPage : Z) (e : error) (items : list T),
      gorm.Count db st = (Err e, st1) ->
      gorm.Find db (wrap_int (wrap_int (page - 1) * perPage)) perPage st1
        = ((items, None), st2) ->
      repository.BaseRepository_FindAll (repository.NewBaseRepository db)
        page perPage st
      = ((items, 0, None), st2))
  /\ fst (repository.BaseRepository_FindAll
            (repository.NewBaseRepository memdb.db) 1 10 memdb.count_down)
     = ([memdb.alice; memdb.bob], 0, None).
Proof.
  split; [| reflexivity].
  intros T S db st st1 st2 page perPage e items Hcount Hfind.
  unfold repository.BaseRepository_FindAll.
  cbn [repository.DB repository.NewBaseRepository].
  unfold bind. rewrite Hcount, Hfind. reflexivity.
Qed.

Lemma FindAll_discards_the_count_error_witness :
  repository.BaseRepository_FindAll (repository.NewBaseRepository memdb.db)
    1 10 memdb.count_down
  = (([memdb.alice; memdb.bob], 0, None), memdb.count_down).
Proof.
  exact (proj1 FindAll_discards_the_count_error User memdb.state memdb.db
           memdb.count_down memdb.count_down memdb.count_down 1 10
           (New "context deadline exceeded") [memdb.alice; memdb.bob]
           eq_refl eq_refl).
Defined.

(** * Further properties of the service layer *)

(** X1: a look-up failure that is not "record not found" is returned as it
    is by FindByID, Update and Delete, and neither Update nor Delete goes on
    to write: the look-up is their only call on the store. *)
Theorem lookup_failure_is_returned_as_it_is :
  forall (S : Type) (R : repository.UserRepository S) (st : S)
         (id : string) (input : UpdateUserInput.t) (e : error),
    fst (repository.FindByID R id st) = Err e ->
    errors.Is e ErrRecordNotFound = false ->
    mock.answer (FindByID (mock.UserRepository R) id) st = Err e
    /\ mock.answer (Update (mock.UserRepository R) id input) st = Err e
    /\ mock.answer (Delete (mock.UserRepository R) id) st = Some e
    /\ mock.calls (Update (mock.UserRepository R) id input) st
       = [mock.CallFindByID id]
    /\ mock.calls (Delete (mock.UserRepository R) id) st
       = [mock.CallFindByID id].
Proof.
  intros S R st id input e Hlookup Hother.
  unfold FindByID, Update, Delete. run.
  rewrite Hlookup, Hother. repeat split.
Qed.

Lemma lookup_failure_is_returned_as_it_is_witness :
  mock.answer (FindByID (mock.UserRepository memdb.repo) "a1")
    memdb.lookups_down
  = Err (New "dial tcp 127.0.0.1:5432: connection refused")
  /\ mock.calls (Delete (mock.UserRepository memdb.repo) "a1")
       memdb.lookups_down
     = [mock.CallFindByID "a1"].
Proof.
  destruct (lookup_failure_is_returned_as_it_is memdb.state memdb.repo
              memdb.lookups_down "a1" {| UpdateUserInput.Name := "Al" |}
              (New "dial tcp 127.0.0.1:5432: connection refused")
              eq_refl eq_refl) as (H1 & _ & _ & _ & H5).
  split; [exact H1 | exact H5].
Defined.

(** X2: when the look-up finds no user and hashing succeeds, Create makes
    exactly three calls: the look-up, the hashing of the given password, and
    one Create of the store for a user with the given name and email, the
    hash (not the password) as its password, role "user", is_active true
    and no identifier yet.  Its answer is the store's error when there is
    one, and otherwise the response of the user as the store gave it back. *)
Theorem Create_persists_the_hash_with_the_defaults :
  forall (S : Type) (crypt : bcrypt.Package S)
         (R : repository.UserRepository S) (st : S)
         (input : CreateUserInput.t) (e : error) (hashed : string),
    fst (repository.FindByEmail R (CreateUserInput.Email input) st) = Err e ->
    fst (bcrypt.GenerateFromPassword crypt (CreateUserInput.Password input)
           bcrypt.DefaultCost
           (snd (repository.FindByEmail R (CreateUserInput.Email input) st)))
      = Ok hashed ->
    let user := {| base := zeroBase;
                   Name := CreateUserInput.Name input;
                   Email := CreateUserInput.Email input;
                   Password := hashed;
                   Role := "user";
                   IsActive := true |} in
    let stored :=
      fst (repository.Create R user
             (snd (bcrypt.GenerateFromPassword crypt
                     (CreateUserInput.Password input) bcrypt.DefaultCost
                     (snd (repository.FindByEmail R
                             (CreateUserInput.Email input) st))))) in
    mock.calls (Create (mock.Bcrypt crypt) (mock.UserRepository R) input) st
    = [mock.CallFindByEmail (CreateUserInput.Email input);
       mock.CallGenerateFromPassword (CreateUserInput.Password input);
       mock.CallCreate user]
    /\ mock.answer (Create (mock.Bcrypt crypt) (mock.UserRepository R) input)
         st
       = match snd stored with
         | Some err => Err err
         | None => Ok (toUserResponse (fst stored))
         end.
Proof.
  intros S crypt R st input e hashed Hlookup Hhash user stored.
  subst stored user. unfold Create. run. rewrite Hlookup. run.
  rewrite Hhash. run.
  match goal with
  | |- context [repository.Create R ?u ?s] =>
      destruct (repository.Create R u s) as [[u' [err|]] s']
  end; cbn [fst snd ret app]; split; reflexivity.
Qed.

Lemma Create_persists_the_hash_with_the_defaults_witness :
  mock.calls
    (Create (mock.Bcrypt memdb.crypt) (mock.UserRepository memdb.repo)
       {| CreateUserInput.Name := "Carol";
          CreateUserInput.Email := "carol@example.com";
          CreateUserInput.Password := "password123" |}) memdb.healthy
  = [mock.CallFindByEmail "carol@example.com";
     mock.CallGenerateFromPassword "password123";
     mock.CallCreate
       {| base := zeroBase; Name := "Carol"; Email := "carol@example.com";
          Password := "$2a$password123"; Role := "user"; IsActive := true |}].
Proof.
  exact (proj1 (Create_persists_the_hash_with_the_defaults memdb.state
                  memdb.crypt memdb.repo memdb.healthy
                  {| CreateUserInput.Name := "Carol";
                     CreateUserInput.Email := "carol@example.com";
                     CreateUserInput.Password := "password123" |}
                  ErrRecordNotFound "$2a$password123" eq_refl eq_refl)).
Defined.

(** X3: when hashing the password fails, Create returns the hashing error
    and the store's Create is never called. *)
Theorem Create_hash_failure_no_persist :
  forall (S : Type) (crypt : bcrypt.Package S)
         (R : repository.UserRepository S) (st : S)
         (input : CreateUserInput.t) (e e' : error),
    fst (repository.FindByEmail R (CreateUserInput.Email input) st) = Err e ->
    fst (bcrypt.GenerateFromPassword crypt (CreateUserInput.Password input)
           bcrypt.DefaultCost
           (snd (repository.FindByEmail R (CreateUserInput.Email input) st)))
      = Err e' ->
    mock.answer (Create (mock.Bcrypt crypt) (mock.UserRepository R) input) st
    = Err e'
    /\ mock.calls (Create (mock.Bcrypt crypt) (mock.UserRepository R) input) st
       = [mock.CallFindByEmail (CreateUserInput.Email input);
          mock.CallGenerateFromPassword (CreateUserInput.Password input)].
Proof.
  intros S crypt R st input e e' Hlookup Hhash.
  unfold Create. run. rewrite Hlookup. run. rewrite Hhash.
  split; reflexivity.
Qed.

Lemma Create_hash_failure_no_persist_witness :
  mock.answer
    (Create (mock.Bcrypt stub.crypt_too_long) (mock.UserRepository memdb.repo)
       {| CreateUserInput.Name := "Carol";
          CreateUserInput.Email := "carol@example.com";
          CreateUserInput.Password := "password123" |}) memdb.healthy
  = Err (New "bcrypt: password length exceeds 72 bytes")
  /\ mock.calls
       (Create (mock.Bcrypt stub.crypt_too_long)
          (mock.UserRepository memdb.repo)
          {| CreateUserInput.Name := "Carol";
             CreateUserInput.Email := "carol@example.com";
             CreateUserInput.Password := "password123" |}) memdb.healthy
     = [mock.CallFindByEmail "carol@example.com";
        mock.CallGenerateFromPassword "password123"].
Proof.
  exact (Create_hash_failure_no_persist memdb.state stub.crypt_too_long
           memdb.repo memdb.healthy
           {| CreateUserInput.Name := "Carol";
              CreateUserInput.Email := "carol@example.com";
              CreateUserInput.Password := "password123" |}
           ErrRecordNotFound
           (New "bcrypt: password length exceeds 72 bytes") eq_refl eq_refl).
Defined.

(** X4: the service's FindAll hands on what the store listed: on a store
    error it returns that error with no items and a total of 0, whatever
    the store returned beside the error; otherwise it returns one response
    per listed user, in the store's order, with the store's total. *)
Theorem FindAll_answer :
  forall (S : Type) (R : repository.UserRepository S) (st : S)
         (page perPage : Z) (users : list User) (total : Z),
    (forall e,
        fst (repository.FindAll R page perPage st) = (users, total, Some e) ->
        fst (FindAll R page perPage st) = ([], 0, Some e))
    /\ (fst (repository.FindAll R page perPage st) = (users, total, None) ->
        fst (FindAll R page perPage st)
        = (map toUserResponse users, total, None)
        /\ len (fst (fst (fst (FindAll R page perPage st)))) = len users).
Proof.
  intros S R st page perPage users total. unfold FindAll. run. split.
  - intros e ->. reflexivity.
  - intros ->. cbn [fst snd ret]. split; [reflexivity |].
    unfold len. now rewrite length_map.
Qed.

Lemma FindAll_answer_witness :
  fst (FindAll memdb.repo 1 10 memdb.healthy)
  = (map toUserResponse [memdb.alice; memdb.bob], 2, None).
Proof.
  exact (proj1 (proj2 (FindAll_answer memdb.state memdb.repo memdb.healthy
                         1 10 [memdb.alice; memdb.bob] 2) eq_refl)).
Defined.

(** X5: for a user the store finds, Delete makes the look-up and then one
    Delete of the store for the same id, and returns what that Delete
    returned. *)
Theorem Delete_found :
  forall (S : Type) (R : repository.UserRepository S) (st : S)
         (id : string) (found : User),
    fst (repository.FindByID R id st) = Ok found ->
    mock.calls (Delete (mock.UserRepository R) id) st
    = [mock.CallFindByID id; mock.CallDelete id]
    /\ mock.answer (Delete (mock.UserRepository R) id) st
       = fst (repository.Delete R id (snd (repository.FindByID R id st)))
    /\ mock.world (Delete (mock.UserRepository R) id) st
       = snd (repository.Delete R id (snd (repository.FindByID R id st))).
Proof.
  intros S R st id found Hlookup. unfold Delete. run. rewrite Hlookup. run.
  repeat split.
Qed.

Lemma Delete_found_witness :
  mock.calls (Delete (mock.UserRepository memdb.repo) "a1") memdb.healthy
  = [mock.CallFindByID "a1"; mock.CallDelete "a1"]
  /\ mock.answer (Delete (mock.UserRepository memdb.repo) "a1") memdb.healthy
     = None
  /\ memdb.rows
       (mock.world (Delete (mock.UserRepository memdb.repo) "a1")
          memdb.healthy)
     = [memdb.bob].
Proof.
  destruct (Delete_found memdb.state memdb.repo memdb.healthy "a1"
              memdb.alice eq_refl) as (Hcalls & Hanswer & Hworld).
  split; [exact Hcalls | split].
  - rewrite Hanswer. reflexivity.
  - rewrite Hworld. reflexivity.
Defined.

(** X6: on a store whose Update succeeds and gives the user back as it got
    it, Update of a found user answers with that user's id, email, role and
    is_active, and with the given name, or the found name when the given
    one is empty. *)
Theorem Update_response_on_a_faithful_store :
  forall (S : Type) (R : repository.UserRepository S) (st : S)
         (id : string) (input : UpdateUserInput.t) (found : User),
    fst (repository.FindByID R id st) = Ok found ->
    (forall u, fst (repository.Update R u
                      (snd (repository.FindByID R id st))) = (u, None)) ->
    fst (Update R id input st)
    = Ok {| UserResponse.ID := uuid.String (ID (base found));
            UserResponse.Name :=
              if String.eqb (UpdateUserInput.Name input) "" then Name found
              else UpdateUserInput.Name input;
            UserResponse.Email := Email found;
            UserResponse.Role := Role found;
            UserResponse.IsActive := IsActive found |}.
Proof.
  intros S R st id input found Hlookup Hfaithful.
  unfold Update. run. rewrite Hlookup. run. rewrite Hfaithful.
  destruct (String.eqb (UpdateUserInput.Name input) ""); reflexivity.
Qed.

Lemma Update_response_on_a_faithful_store_witness :
  fst (Update memdb.repo "a1" {| UpdateUserInput.Name := "Alicia" |}
         memdb.healthy)
  = Ok {| UserResponse.ID := "a1"; UserResponse.Name := "Alicia";
          UserResponse.Email := "alice@example.com";
          UserResponse.Role := "admin"; UserResponse.IsActive := true |}.
Proof.
  exact (Update_response_on_a_faithful_store memdb.state memdb.repo
           memdb.healthy "a1" {| UpdateUserInput.Name := "Alicia" |}
           memdb.alice eq_refl (fun u => eq_refl)).
Defined.

(** X7: Login and FindByID only read.  Whatever the outcome, Login's one
    call on the store is the look-up by email and it never hashes anything;
    FindByID's one call is the look-up by id. *)
Theorem Login_and_FindByID_only_read :
  forall (S : Type) (crypt : bcrypt.Package S)
         (R : repository.UserRepository S)
         (Generate : string -> string -> string -> M S (result jwt.Token))
         (st : S) (input : LoginInput.t) (id : string),
    mock.calls
      (Login (mock.Bcrypt crypt) (mock.UserRepository R)
         (fun userID email role => mock.Untracked (Generate userID email role))
         input) st
    = [mock.CallFindByEmail (LoginInput.Email input)]
    /\ mock.calls (FindByID (mock.UserRepository R) id) st
       = [mock.CallFindByID id].
Proof.
  intros S crypt R Generate st input id. split.
  - unfold Login. run.
    destruct (fst (repository.FindByEmail R _ st)) as [u|e]; [| reflexivity].
    destruct (bcrypt.CompareHashAndPassword crypt _ _); [reflexivity |].
    destruct (IsActive u); cbn [negb]; [| reflexivity].
    run. unfold mock.Untracked. cbn [fst snd].
    destruct (Generate _ _ _ _) as [[token|e] st']; reflexivity.
  - unfold FindByID. run.
    destruct (fst (repository.FindByID R id st)) as [u|e]; [reflexivity |].
    destruct (errors.Is e ErrRecordNotFound); reflexivity.
Qed.

(** X8: Login succeeds exactly when the look-up finds a user, the password
    matches the stored hash, the user is active and the token is issued;
    the answer then carries that token (issued for the user's id, email and
    role) and the user's response. *)
Theorem Login_succeeds_exactly_when :
  forall (S : Type) (crypt : bcrypt.Package S)
         (R : repository.UserRepository S)
         (Generate : string -> string -> string -> M S (result jwt.Token))
         (st : S) (input : LoginInput.t) (a : AuthResponse.t),
    fst (Login crypt R Generate input st) = Ok a
    <-> exists u token,
          fst (repository.FindByEmail R (LoginInput.Email input) st) = Ok u
          /\ bcrypt.CompareHashAndPassword crypt (Password u)
               (LoginInput.Password input) = None
          /\ IsActive u = true
          /\ fst (Generate (uuid.String (ID (base u))) (Email u) (Role u)
                    (snd (repository.FindByEmail R (LoginInput.Email input)
                            st))) = Ok token
          /\ a = {| AuthResponse.Token := token;
                    AuthResponse.User := toUserResponse u |}.
Proof.
  intros S crypt R Generate st input a. unfold Login. run. split.
  - destruct (fst (repository.FindByEmail R _ st)) as [u|e];
      cbn [fst ret]; [| discriminate].
    destruct (bcrypt.CompareHashAndPassword crypt _ _) eqn:Hcmp;
      cbn [fst ret]; [discriminate |].
    destruct (IsActive u) eqn:Hact; cbn [negb fst ret]; [| discriminate].
    run.
    destruct (fst (Generate _ _ _ _)) as [token|e] eqn:Hgen;
      cbn [fst ret]; [| discriminate].
    intros [= <-]. exists u, token. repeat split; assumption.
  - intros (u & token & Hlookup & Hcmp & Hact & Hgen & ->).
    rewrite Hlookup, Hcmp, Hact. cbn [negb]. run. rewrite Hgen. reflexivity.
Qed.

Lemma Login_succeeds_exactly_when_witness :
  exists token,
    fst (Login memdb.crypt memdb.repo memdb.Generate
           {| LoginInput.Email := "alice@example.com";
              LoginInput.Password := "correct horse" |} memdb.healthy)
    = Ok {| AuthResponse.Token := token;
            AuthResponse.User := toUserResponse memdb.alice |}.
Proof.
  eexists.
  apply (proj2 (Login_succeeds_exactly_when memdb.state memdb.crypt memdb.repo
                  memdb.Generate memdb.healthy
                  {| LoginInput.Email := "alice@example.com";
                     LoginInput.Password := "correct horse" |} _)).
  exists memdb.alice. eexists. repeat split.
Defined.

(** * Further properties of the repository and the list endpoint *)

Lemma wrap_int_id (z : Z) : - 2 ^ 63 <= z < 2 ^ 63 -> wrap_int z = z.
Proof.
  intros H. unfold wrap_int. rewrite Z.mod_small; lia.
Qed.

Lemma Ran_run {S A : Type} (q : sqlmock.Query) (m : M S A) (st : S)
  (log : list sqlmock.Query) :
  sqlmock.Ran q m (st, log) = (fst (m st), (snd (m st), (log ++ [q])%list)).
Proof. unfold sqlmock.Ran; simpl. destruct (m st); reflexivity. Qed.

Lemma BaseRepository_FindAll_queries {T S : Type} (db : gorm.DB T S) (st : S)
  (page perPage : Z) :
  sqlmock.queries
    (repository.BaseRepository_FindAll
       (repository.NewBaseRepository (sqlmock.DB db)) page perPage) st
  = [sqlmock.QCount;
     sqlmock.QFind (wrap_int (wrap_int (page - 1) * perPage)) perPage].
Proof.
  unfold sqlmock.queries, repository.BaseRepository_FindAll.
  cbn [repository.DB repository.NewBaseRepository sqlmock.DB
       gorm.Count gorm.Find].
  rewrite bind_run, Ran_run. cbn [fst snd].
  rewrite bind_run, Ran_run. cbn [fst snd].
  destruct (fst (gorm.Find db _ _ _)) as [entities err]. reflexivity.
Qed.

(** X9: BaseRepository.FindAll always runs the count and then one page
    query whose limit is per_page, for every page and per_page: no bound is
    checked, and the offset is (page - 1) * per_page computed in 64-bit
    arithmetic.  For a page from 1 on whose offset fits a 64-bit integer,
    the offset is (page - 1) * per_page; page 0 gives the negative offset
    - per_page. *)
Theorem BaseRepository_FindAll_offset :
  forall (T S : Type) (db : gorm.DB T S) (st : S) (page perPage : Z),
    sqlmock.queries
      (repository.BaseRepository_FindAll
         (repository.NewBaseRepository (sqlmock.DB db)) page perPage) st
    = [sqlmock.QCount;
       sqlmock.QFind (wrap_int (wrap_int (page - 1) * perPage)) perPage]
    /\ (1 <= page < 2 ^ 63 ->
        0 <= perPage ->
        (page - 1) * perPage < 2 ^ 63 ->
        sqlmock.queries
          (repository.BaseRepository_FindAll
             (repository.NewBaseRepository (sqlmock.DB db)) page perPage) st
        = [sqlmock.QCount; sqlmock.QFind ((page - 1) * perPage) perPage])
    /\ (0 <= perPage < 2 ^ 63 ->
        sqlmock.queries
          (repository.BaseRepository_FindAll
             (repository.NewBaseRepository (sqlmock.DB db)) 0 perPage) st
        = [sqlmock.QCount; sqlmock.QFind (- perPage) perPage]).
Proof.
  intros T S db st page perPage.
  split; [apply BaseRepository_FindAll_queries | split].
  - intros Hpage HperPage Hfits. rewrite BaseRepository_FindAll_queries.
    rewrite (wrap_int_id (page - 1)) by lia.
    rewrite wrap_int_id by nia. reflexivity.
  - intros HperPage. rewrite BaseRepository_FindAll_queries.
    rewrite (wrap_int_id (0 - 1)) by lia.
    rewrite wrap_int_id by lia.
    replace ((0 - 1) * perPage) with (- perPage) by lia. reflexivity.
Qed.

Lemma BaseRepository_FindAll_offset_witness :
  sqlmock.queries
    (repository.BaseRepository_FindAll
       (repository.NewBaseRepository (sqlmock.DB memdb.db)) 3 10)
    memdb.healthy
  = [sqlmock.QCount; sqlmock.QFind 20 10]
  /\ sqlmock.queries
       (repository.BaseRepository_FindAll
          (repository.NewBaseRepository (sqlmock.DB memdb.db)) 0 10)
       memdb.healthy
     = [sqlmock.QCount; sqlmock.QFind (-10) 10]
  /\ sqlmock.queries
       (repository.BaseRepository_FindAll
          (repository.NewBaseRepository (sqlmock.DB memdb.db)) (-4) (-7))
       memdb.healthy
     = [sqlmock.QCount; sqlmock.QFind 35 (-7)].
Proof.
  split; [| split].
  - apply (proj1 (proj2 (BaseRepository_FindAll_offset User memdb.state
                           memdb.db memdb.healthy 3 10))); lia.
  - apply (proj2 (proj2 (BaseRepository_FindAll_offset User memdb.state
                           memdb.db memdb.healthy 0 10))); lia.
  - exact (proj1 (BaseRepository_FindAll_offset User memdb.state memdb.db
                    memdb.healthy (-4) (-7))).
Defined.

(** X10: from the list handler down to the database.  Whatever page and
    per_page the request carries, the database sees the count and one page
    query whose limit lies in [1,100]; and as long as the page is at most
    92233720368547758 the offset is not negative: it is (page - 1) * limit
    for page >= 1 and 0 for page < 1. *)
Theorem list_endpoint_limit_and_offset :
  forall (S : Type) (db : gorm.DB User S) (st : S) (page perPage : Z),
    exists offset limit,
      sqlmock.queries
        (handler.FindAll
           (FindAll (repository.NewUserRepository (sqlmock.DB db)))
           page perPage) st
      = [sqlmock.QCount; sqlmock.QFind offset limit]
      /\ 1 <= limit <= 100
      /\ (page <= 92233720368547758 ->
          0 <= offset /\ offset = (Z.max page 1 - 1) * limit).
Proof.
  intros S db st page perPage.
  set (p := if page <? 1 then 1 else page).
  set (pp := if (perPage <? 1) || (100 <? perPage) then 10 else perPage).
  assert (Hpp : 1 <= pp <= 100).
  { subst pp. destruct (Z.ltb_spec perPage 1), (Z.ltb_spec 100 perPage);
      cbn [orb]; lia. }
  assert (Hp : 1 <= p /\ p = Z.max page 1).
  { subst p. destruct (Z.ltb_spec page 1); lia. }
  exists (wrap_int (wrap_int (p - 1) * pp)), pp. split; [| split].
  - pose proof (BaseRepository_FindAll_queries db st p pp) as Hq.
    unfold sqlmock.queries in *. unfold handler.FindAll, FindAll.
    fold p. fold pp. rewrite !bind_run.
    cbn [repository.FindAll repository.NewUserRepository].
    destruct (repository.BaseRepository_FindAll _ p pp (st, []))
      as [[[users total] [err|]] w]; cbn [fst snd ret] in *; exact Hq.
  - exact Hpp.
  - intros Hpage. destruct Hp as [Hp1 Hp2].
    rewrite (wrap_int_id (p - 1)) by lia.
    rewrite wrap_int_id by nia. rewrite <- Hp2. split; [nia | reflexivity].
Qed.

Lemma list_endpoint_limit_and_offset_witness :
  exists offset limit,
    sqlmock.queries
      (handler.FindAll
         (FindAll (repository.NewUserRepository (sqlmock.DB memdb.db)))
         7 500) memdb.healthy
    = [sqlmock.QCount; sqlmock.QFind offset limit]
    /\ 0 <= offset /\ offset = (Z.max 7 1 - 1) * limit.
Proof.
  destruct (list_endpoint_limit_and_offset memdb.state memdb.db memdb.healthy
              7 500) as (offset & limit & Hq & _ & Hoff).
  exists offset, limit. split; [exact Hq | apply Hoff; lia].
Defined.

(** X11: the list handler never panics: the per_page it divides by is never
    0.  It calls the service with the normalized page and per_page; when
    that call reports an error the reply is the fixed 500 "Failed to fetch
    users", and when it does not, the reply is a 200 that carries the
    service's items and total, the normalized page (at least 1) and the
    normalized per_page (in [1,100]). *)
Theorem list_handler_replies :
  forall (S : Type)
         (svc : Z -> Z -> M S (list UserResponse.t * Z * option error))
         (st : S) (page perPage : Z),
    fst (handler.FindAll svc page perPage st) <> response.Panic
    /\ (forall e,
           snd (fst (svc (if page <? 1 then 1 else page)
                         (if (perPage <? 1) || (100 <? perPage) then 10
                          else perPage) st)) = Some e ->
           handler.FindAll svc page perPage st
           = (response.JSON 500 false (response.Error "Failed to fetch users"),
              snd (svc (if page <? 1 then 1 else page)
                       (if (perPage <? 1) || (100 <? perPage) then 10
                        else perPage) st)))
    /\ (snd (fst (svc (if page <? 1 then 1 else page)
                      (if (perPage <? 1) || (100 <? perPage) then 10
                       else perPage) st)) = None ->
        exists d,
          handler.FindAll svc page perPage st
          = (response.JSON 200 true (response.Data d),
             snd (svc (if page <? 1 then 1 else page)
                      (if (perPage <? 1) || (100 <? perPage) then 10
                       else perPage) st))
          /\ response.Items d
             = fst (fst (fst (svc (if page <? 1 then 1 else page)
                                  (if (perPage <? 1) || (100 <? perPage)
                                   then 10 else perPage) st)))
          /\ response.Total d
             = snd (fst (fst (svc (if page <? 1 then 1 else page)
                                  (if (perPage <? 1) || (100 <? perPage)
                                   then 10 else perPage) st)))
          /\ response.Page d = (if page <? 1 then 1 else page)
          /\ response.PerPage d
             = (if (perPage <? 1) || (100 <? perPage) then 10 else perPage)
          /\ 1 <= response.Page d
          /\ 1 <= response.PerPage d <= 100).
Proof.
  intros S svc st page perPage. unfold handler.FindAll.
  set (p := if page <? 1 then 1 else page).
  set (pp := if (perPage <? 1) || (100 <? perPage) then 10 else perPage).
  assert (Hpp : 1 <= pp <= 100).
  { subst pp. destruct (Z.ltb_spec perPage 1), (Z.ltb_spec 100 perPage);
      cbn [orb]; lia. }
  assert (Hp : 1 <= p).
  { subst p. destruct (Z.ltb_spec page 1); lia. }
  rewrite bind_run.
  destruct (svc p pp st) as [[[users total] [err|]] st']; cbn [fst snd ret].
  - split; [discriminate |]. split; [| discriminate].
    intros e _. reflexivity.
  - unfold response.Paginated.
    destruct (Z.eqb_spec pp 0) as [Hz|_]; [lia |].
    split; [discriminate |]. split; [discriminate |].
    intros _. eexists. split; [reflexivity |].
    cbn [response.Items response.Total response.Page response.PerPage].
    repeat split; lia.
Qed.

Lemma list_handler_replies_witness :
  handler.FindAll (FindAll memdb.repo) 0 500 stub.find_down
  = (response.JSON 500 false (response.Error "Failed to fetch users"),
     stub.find_down)
  /\ exists d,
       handler.FindAll (FindAll memdb.repo) 0 500 memdb.healthy
       = (response.JSON 200 true (response.Data d), memdb.healthy)
       /\ response.Items d = map toUserResponse [memdb.alice; memdb.bob]
       /\ response.Total d = 2
       /\ response.Page d = 1
       /\ response.PerPage d = 10.
Proof.
  destruct (list_handler_replies memdb.state (FindAll memdb.repo)
              stub.find_down 0 500) as (_ & Hfail & _).
  destruct (list_handler_replies memdb.state (FindAll memdb.repo)
              memdb.healthy 0 500) as (_ & _ & Hgood).
  split.
  - exact (Hfail (New "pq: canceling statement due to user request") eq_refl).
  - destruct (Hgood eq_refl)
      as (d & Hrun & Hitems & Htotal & Hpage & HperPage & _).
    exists d. repeat split; assumption.
Defined.

(** X12: Paginated counts the pages by rounding up: for a total that is not
    negative and a per_page of at least 1, the reply is a 200 whose
    total_pages n satisfies (n - 1) * per_page < total <= n * per_page;
    items, total, page and per_page are passed on unchanged. *)
Theorem Paginated_rounds_up :
  forall (items : list UserResponse.t) (total page perPage : Z),
    0 <= total < 2 ^ 63 ->
    1 <= perPage ->
    exists n,
      response.Paginated items total page perPage
      = response.JSON 200 true
          (response.Data
             {| response.Items := items; response.Total := total;
                response.Page := page; response.PerPage := perPage;
                response.TotalPages := n |})
      /\ (n - 1) * perPage < total <= n * perPage.
Proof.
  intros items total page perPage Htotal HperPage.
  unfold response.Paginated.
  destruct (Z.eqb_spec perPage 0) as [Hz|_]; [lia |].
  rewrite Z.quot_div_nonneg, Z.rem_mod_nonneg by lia.
  pose proof (Z.div_mod total perPage ltac:(lia)) as Hdm.
  pose proof (Z.mod_pos_bound total perPage ltac:(lia)) as Hmod.
  assert (Hq : 0 <= total / perPage <= total).
  { split; [apply Z.div_pos; lia |].
    apply Z.div_le_upper_bound; [lia | nia]. }
  rewrite (wrap_int_id (total / perPage)) by lia.
  destruct (Z.ltb_spec 0 (total mod perPage)) as [Hrem|Hrem].
  - assert (total / perPage + 1 < 2 ^ 63) by nia.
    rewrite wrap_int_id by lia.
    eexists. split; [reflexivity | nia].
  - eexists. split; [reflexivity | nia].
Qed.

Lemma Paginated_rounds_up_witness :
  exists n,
    response.Paginated [] 6 2 5
    = response.JSON 200 true
        (response.Data
           {| response.Items := []; response.Total := 6;
              response.Page := 2; response.PerPage := 5;
              response.TotalPages := n |})
    /\ (n - 1) * 5 < 6 <= n * 5.
Proof.
  apply (Paginated_rounds_up [] 6 2 5); lia.
Defined.

(** * Properties of the middlewares *)

Section Split_facts.
Variable sep : Ascii.ascii.

Lemma Split_not_nil (s : string) : strings.Split s sep <> [].
Proof.
  destruct s as [|c rest]; cbn [strings.Split]; [discriminate |].
  destruct (Ascii.eqb c sep); [discriminate |].
  destruct (strings.Split rest sep); discriminate.
Qed.

Lemma Split_without_sep (s : string) :
  strings.ContainsRune s sep = false -> strings.Split s sep = [s].
Proof.
  induction s as [|c rest IH]; cbn [strings.Split strings.ContainsRune];
    [reflexivity |].
  intros H. apply orb_false_iff in H as [Hc Hrest].
  rewrite Hc, (IH Hrest). reflexivity.
Qed.

Lemma Split_at_first_sep (a b : string) :
  strings.ContainsRune a sep = false ->
  strings.Split (String.append a (String sep b)) sep
  = a :: strings.Split b sep.
Proof.
  induction a as [|c rest IH]; cbn [String.append strings.Split
                                     strings.ContainsRune].
  - intros _. now rewrite Ascii.eqb_refl.
  - intros H. apply orb_false_iff in H as [Hc Hrest].
    rewrite Hc, (IH Hrest). reflexivity.
Qed.

Lemma Split_one_piece (s p : string) :
  strings.Split s sep = [p] ->
  s = p /\ strings.ContainsRune p sep = false.
Proof.
  revert p. induction s as [|c rest IH]; intros p; cbn [strings.Split].
  - intros [= <-]. split; reflexivity.
  - destruct (Ascii.eqb_spec c sep) as [->|Hne].
    + intros H. injection H as _ H. now apply Split_not_nil in H.
    + destruct (strings.Split rest sep) as [|q [|r qs]] eqn:Hs;
        try discriminate; [now apply Split_not_nil in Hs |].
      intros [= <-]. destruct (IH q eq_refl) as [-> Hq].
      split; [reflexivity |]. cbn [strings.ContainsRune].
      apply orb_false_iff. split; [now apply Ascii.eqb_neq | exact Hq].
Qed.

(** Two pieces come from exactly one separator. *)
Lemma Split_two_pieces (s a b : string) :
  strings.Split s sep = [a; b] ->
  s = String.append a (String sep b)
  /\ strings.ContainsRune a sep = false
  /\ strings.ContainsRune b sep = false.
Proof.
  revert a. induction s as [|c rest IH]; intros a;
    cbn [strings.Split]; [discriminate |].
  destruct (Ascii.eqb_spec c sep) as [->|Hne].
  - intros [= <- Hrest]. apply Split_one_piece in Hrest as [-> Hb].
    cbn [String.append strings.ContainsRune].
    split; [reflexivity | split; [reflexivity | exact Hb]].
  - destruct (strings.Split rest sep) as [|p [|q [|r ps]]] eqn:Hs;
      try discriminate.
    intros [= <- <-]. destruct (IH p eq_refl) as (-> & Hp & Hq).
    cbn [String.append strings.ContainsRune].
    split; [reflexivity | split; [| exact Hq]].
    apply orb_false_iff. split; [now apply Ascii.eqb_neq | exact Hp].
Qed.
End Split_facts.

Lemma Locals_SetLocals (c : fiber.Ctx) (key value : string) :
  fiber.Locals (fiber.SetLocals c key value) key = Some value.
Proof.
  unfold fiber.Locals, fiber.SetLocals. cbn [fiber.locals find fst snd].
  now rewrite String.eqb_refl.
Qed.

Section Auth_facts.
Context {S : Type}.
Variable Validate : string -> M S (result jwt.Claims).
Variable Error : error -> string.
Variable next : fiber.Ctx -> M S pkg_response.Reply.

Lemma Auth_bearer (c : fiber.Ctx) (token : string) :
  fiber.Get c "Authorization" = String.append "Bearer " token ->
  strings.ContainsRune token strings.space = false ->
  middleware.Auth Validate Error next c
  = (validated <- Validate token ;;
     match validated with
     | Err err => ret (pkg_response.Unauthorized (Error err))
     | Ok claims =>
         next (fiber.SetLocals
                 (fiber.SetLocals
                    (fiber.SetLocals c "user_id" (jwt.UserID claims))
                    "email" (jwt.Email claims))
                 "role" (jwt.Role claims))
     end).
Proof.
  intros Hheader Htoken. unfold middleware.Auth. rewrite Hheader.
  change (String.append "Bearer " token)
    with (String.append "Bearer" (String strings.space token)).
  rewrite Split_at_first_sep by reflexivity.
  rewrite (Split_without_sep _ _ Htoken). reflexivity.
Qed.

Lemma Auth_not_bearer (c : fiber.Ctx) (st : S) :
  (forall token,
      fiber.Get c "Authorization" = String.append "Bearer " token ->
      strings.ContainsRune token strings.space = true) ->
  exists message,
    middleware.Auth Validate Error next c st
    = (pkg_response.Unauthorized message, st).
Proof.
  intros Hbad. unfold middleware.Auth.
  destruct (String.eqb (fiber.Get c "Authorization") "");
    [eexists; reflexivity |].
  destruct (strings.Split (fiber.Get c "Authorization") strings.space)
    as [|p0 [|p1 [|p2 ps]]] eqn:Hsplit.
  - eexists; reflexivity.
  - eexists; reflexivity.
  - cbn [nth]. change (len [p0; p1] =? 2) with true. cbn [negb orb].
    destruct (String.eqb_spec p0 "Bearer") as [->|_]; cbn [negb];
      [| eexists; reflexivity].
    apply Split_two_pieces in Hsplit as (Hheader & _ & Hp1).
    specialize (Hbad p1 Hheader). congruence.
  - replace (len (p0 :: p1 :: p2 :: ps) =? 2) with false;
      [eexists; reflexivity |].
    symmetry. apply Z.eqb_neq. unfold len. cbn [List.length]. lia.
Qed.
End Auth_facts.

(** X13: Auth lets a request through to token validation exactly when the
    Authorization header is "Bearer ", one space, and a token without
    spaces.  Then the token is validated: a rejected token is answered 401
    with the error's text, an accepted one runs the rest of the chain with
    the claims' user id, email and role stored as locals.  Every other
    header, the missing one included, is answered 401 at once: the token is
    not validated, the rest of the chain is not run, the world is untouched. *)
Theorem Auth_accepts_bearer_tokens_only :
  forall (S : Type) (Validate : string -> M S (result jwt.Claims))
         (Error : error -> string)
         (next : fiber.Ctx -> M S pkg_response.Reply)
         (c : fiber.Ctx) (st : S),
    (forall token,
        fiber.Get c "Authorization" = String.append "Bearer " token ->
        strings.ContainsRune token strings.space = false ->
        middleware.Auth Validate Error next c st
        = match fst (Validate token st) with
          | Err err =>
              (pkg_response.Unauthorized (Error err), snd (Validate token st))
          | Ok claims =>
              next (fiber.SetLocals
                      (fiber.SetLocals
                         (fiber.SetLocals c "user_id" (jwt.UserID claims))
                         "email" (jwt.Email claims))
                      "role" (jwt.Role claims))
                   (snd (Validate token st))
          end)
    /\ ((forall token,
            fiber.Get c "Authorization" = String.append "Bearer " token ->
            strings.ContainsRune token strings.space = true) ->
        exists message,
          middleware.Auth Validate Error next c st
          = (pkg_response.Unauthorized message, st)).
Proof.
  intros S Validate Error next c st. split.
  - intros token Hheader Htoken.
    rewrite (Auth_bearer Validate Error next c token Hheader Htoken).
    rewrite bind_run. destruct (fst (Validate token st)); reflexivity.
  - apply Auth_not_bearer.
Qed.

Lemma Auth_accepts_bearer_tokens_only_witness :
  middleware.Auth stub.Validate stub.Error auth_handler.Me
    (stub.request "Bearer nobody-token" "" "") memdb.healthy
  = (pkg_response.Unauthorized "invalid token", memdb.healthy)
  /\ exists message,
       middleware.Auth stub.Validate stub.Error auth_handler.Me
         (stub.request "bearer alice-token" "" "") memdb.healthy
       = (pkg_response.Unauthorized message, memdb.healthy).
Proof.
  destruct (Auth_accepts_bearer_tokens_only memdb.state stub.Validate
              stub.Error auth_handler.Me) with
    (c := stub.request "Bearer nobody-token" "" "") (st := memdb.healthy)
    as [Hgood _].
  destruct (Auth_accepts_bearer_tokens_only memdb.state stub.Validate
              stub.Error auth_handler.Me) with
    (c := stub.request "bearer alice-token" "" "") (st := memdb.healthy)
    as [_ Hbad].
  split.
  - exact (Hgood "nobody-token"%string eq_refl eq_refl).
  - apply Hbad. intros token Hheader. discriminate Hheader.
Defined.

Section RoleRequired_facts.
Context {S : Type}.
Variable next : fiber.Ctx -> M S pkg_response.Reply.

Lemma RoleRequired_range_allowed (userRole : string) (roles : list string)
  (c : fiber.Ctx) :
  In userRole roles ->
  middleware.RoleRequired_range userRole roles next c = next c.
Proof.
  induction roles as [|role roles IH]; cbn [In middleware.RoleRequired_range];
    [contradiction |].
  intros [->|Hin].
  - now rewrite String.eqb_refl.
  - destruct (String.eqb userRole role); [reflexivity | exact (IH Hin)].
Qed.

Lemma RoleRequired_range_refused (userRole : string) (roles : list string)
  (c : fiber.Ctx) :
  ~ In userRole roles ->
  middleware.RoleRequired_range userRole roles next c
  = ret (pkg_response.Forbidden "Insufficient permissions").
Proof.
  induction roles as [|role roles IH]; cbn [In middleware.RoleRequired_range];
    [reflexivity |].
  intros Hnot. destruct (String.eqb_spec userRole role) as [->|_].
  - exfalso. apply Hnot. now left.
  - apply IH. intros Hin. apply Hnot. now right.
Qed.
End RoleRequired_facts.

(** X14: RoleRequired runs the rest of the chain exactly when the role
    stored in the locals is one of the allowed roles, and answers 403
    "Insufficient permissions" without going on when it is not (always, when
    no role is allowed).  With no role in the locals it panics. *)
Theorem RoleRequired_allows_listed_roles_only :
  forall (S : Type) (roles : list string)
         (next : fiber.Ctx -> M S pkg_response.Reply)
         (c : fiber.Ctx) (st : S),
    (fiber.Locals c "role" = None ->
     middleware.RoleRequired roles next c st = (pkg_response.Panic, st))
    /\ (forall userRole,
           fiber.Locals c "role" = Some userRole ->
           (In userRole roles ->
            middleware.RoleRequired roles next c st = next c st)
           /\ (~ In userRole roles ->
               middleware.RoleRequired roles next c st
               = (pkg_response.Forbidden "Insufficient permissions", st))).
Proof.
  intros S roles next c st. unfold middleware.RoleRequired. split.
  - intros ->. reflexivity.
  - intros userRole ->. split; intros H.
    + now rewrite RoleRequired_range_allowed.
    + now rewrite RoleRequired_range_refused.
Qed.

Lemma RoleRequired_allows_listed_roles_only_witness :
  middleware.RoleRequired ["admin"%string; "owner"%string] auth_handler.Me
    (fiber.SetLocals (stub.request "" "" "") "role" "user") memdb.healthy
  = (pkg_response.Forbidden "Insufficient permissions", memdb.healthy)
  /\ middleware.RoleRequired ["admin"%string] auth_handler.Me
       (stub.request "" "" "") memdb.healthy
     = (pkg_response.Panic, memdb.healthy).
Proof.
  split.
  - apply (proj2 (RoleRequired_allows_listed_roles_only memdb.state
                    ["admin"%string; "owner"%string] auth_handler.Me
                    (fiber.SetLocals (stub.request "" "" "") "role" "user")
                    memdb.healthy) "user"%string eq_refl).
    intros [H|[H|[]]]; discriminate H.
  - apply (proj1 (RoleRequired_allows_listed_roles_only memdb.state
                    ["admin"%string] auth_handler.Me
                    (stub.request "" "" "") memdb.healthy)).
    reflexivity.
Defined.

Section Auth_cases.
Context {S : Type}.
Variable Validate : string -> M S (result jwt.Claims).
Variable Error : error -> string.
Variable next : fiber.Ctx -> M S pkg_response.Reply.

(** The two ways through Auth. *)
Lemma Auth_cases (c : fiber.Ctx) (st : S) :
  (exists message,
      middleware.Auth Validate Error next c st
      = (pkg_response.Unauthorized message, st))
  \/ (exists token,
         fiber.Get c "Authorization" = String.append "Bearer " token
         /\ strings.ContainsRune token strings.space = false
         /\ middleware.Auth Validate Error next c st
            = match fst (Validate token st) with
              | Err err =>
                  (pkg_response.Unauthorized (Error err),
                   snd (Validate token st))
              | Ok claims =>
                  next (fiber.SetLocals
                          (fiber.SetLocals
                             (fiber.SetLocals c "user_id" (jwt.UserID claims))
                             "email" (jwt.Email claims))
                          "role" (jwt.Role claims))
                       (snd (Validate token st))
              end).
Proof.
  destruct (strings.Split (fiber.Get c "Authorization") strings.space)
    as [|p0 [|p1 [|p2 ps]]] eqn:Hsplit.
  1, 2, 4: left; apply Auth_not_bearer; intros token Hheader;
    destruct (strings.ContainsRune token strings.space) eqn:Htoken;
    [reflexivity | exfalso];
    rewrite Hheader in Hsplit;
    change (String.append "Bearer " token)
      with (String.append "Bearer" (String strings.space token)) in Hsplit;
    rewrite Split_at_first_sep in Hsplit by reflexivity;
    rewrite (Split_without_sep _ _ Htoken) in Hsplit; discriminate.
  destruct (String.eqb_spec p0 "Bearer") as [->|Hp0].
  - right. apply Split_two_pieces in Hsplit as (Hheader & _ & Hp1).
    exists p1. split; [exact Hheader | split; [exact Hp1 |]].
    rewrite (Auth_bearer Validate Error next c p1 Hheader Hp1).
    rewrite bind_run. destruct (fst (Validate p1 st)); reflexivity.
  - left. apply Auth_not_bearer. intros token Hheader.
    destruct (strings.ContainsRune token strings.space) eqn:Htoken;
      [reflexivity | exfalso].
    rewrite Hheader in Hsplit.
    change (String.append "Bearer " token)
      with (String.append "Bearer" (String strings.space token)) in Hsplit.
    rewrite Split_at_first_sep in Hsplit by reflexivity.
    rewrite (Split_without_sep _ _ Htoken) in Hsplit.
    injection Hsplit as Hp _. now apply Hp0.
Qed.
End Auth_cases.

(** X15: behind Auth, RoleRequired never panics: whatever the request, the
    chain Auth, RoleRequired, handler panics only if the handler does. *)
Theorem RoleRequired_behind_Auth_never_panics :
  forall (S : Type) (Validate : string -> M S (result jwt.Claims))
         (Error : error -> string) (roles : list string)
         (next : fiber.Ctx -> M S pkg_response.Reply)
         (c : fiber.Ctx) (st : S),
    (forall c' st', fst (next c' st') <> pkg_response.Panic) ->
    fst (middleware.Auth Validate Error (middleware.RoleRequired roles next)
           c st)
    <> pkg_response.Panic.
Proof.
  intros S Validate Error roles next c st Hnext.
  destruct (Auth_cases Validate Error (middleware.RoleRequired roles next)
              c st) as [[message ->] | (token & _ & _ & ->)];
    [discriminate |].
  destruct (fst (Validate token st)) as [claims|err]; [| discriminate].
  unfold middleware.RoleRequired. rewrite Locals_SetLocals.
  destruct (in_dec string_dec (jwt.Role claims) roles) as [Hin|Hnot].
  - rewrite RoleRequired_range_allowed by exact Hin. apply Hnext.
  - rewrite RoleRequired_range_refused by exact Hnot. discriminate.
Qed.

Lemma RoleRequired_behind_Auth_never_panics_witness :
  fst (middleware.Auth stub.Validate stub.Error
         (middleware.RoleRequired ["admin"%string] auth_handler.Me)
         (stub.request "Bearer bob-token" "" "") memdb.healthy)
  <> pkg_response.Panic.
Proof.
  apply (RoleRequired_behind_Auth_never_panics memdb.state stub.Validate
           stub.Error ["admin"%string] auth_handler.Me
           (stub.request "Bearer bob-token" "" "") memdb.healthy).
  intros c' st'. discriminate.
Defined.

(** X16: GET /auth/me answers a request that carries a valid bearer token
    with exactly the user id, email and role of the token's claims, whatever
    the locals held before. *)
Theorem auth_me_echoes_the_claims :
  forall (S : Type) (Validate : string -> M S (result jwt.Claims))
         (Error : error -> string) (c : fiber.Ctx) (st : S)
         (token : string) (claims : jwt.Claims),
    fiber.Get c "Authorization" = String.append "Bearer " token ->
    strings.ContainsRune token strings.space = false ->
    fst (Validate token st) = Ok claims ->
    router.auth_me Validate Error c st
    = (pkg_response.Success
         (pkg_response.Map
            [("user_id"%string, Some (jwt.UserID claims));
             ("email"%string, Some (jwt.Email claims));
             ("role"%string, Some (jwt.Role claims))]),
       snd (Validate token st)).
Proof.
  intros S Validate Error c st token claims Hheader Htoken Hvalid.
  unfold router.auth_me.
  rewrite (Auth_bearer Validate Error auth_handler.Me c token Hheader Htoken).
  rewrite bind_run, Hvalid. reflexivity.
Qed.

Lemma auth_me_echoes_the_claims_witness :
  router.auth_me stub.Validate stub.Error
    (stub.request "Bearer alice-token" "" "") memdb.healthy
  = (pkg_response.Success
       (pkg_response.Map
          [("user_id"%string, Some "a1"%string);
           ("email"%string, Some "alice@example.com"%string);
           ("role"%string, Some "admin"%string)]),
     memdb.healthy).
Proof.
  exact (auth_me_echoes_the_claims memdb.state stub.Validate stub.Error
           (stub.request "Bearer alice-token" "" "") memdb.healthy
           "alice-token" _ eq_refl eq_refl eq_refl).
Defined.

(** * Properties of the validator and the configuration *)

Lemma Validate_loop (errs : list validator.FieldError.t)
  (acc : list validator.ErrorResponse.t) :
  fold_left (fun errors err => (errors ++ [toErrorResponse err])%list) errs acc
  = (acc ++ map toErrorResponse errs)%list.
Proof.
  revert acc. induction errs as [|err errs IH]; intros acc; cbn [fold_left map].
  - now rewrite app_nil_r.
  - rewrite IH, <- app_assoc. reflexivity.
Qed.

Lemma Validate_map {A : Type} (Struct : A -> list validator.FieldError.t)
  (data : A) :
  validator.Validate Struct data = map toErrorResponse (Struct data).
Proof.
  unfold validator.Validate.
  change (fun errors err =>
            (errors ++ [{| validator.ErrorResponse.Field :=
                             validator.FieldError.Field err;
                           validator.ErrorResponse.Tag :=
                             validator.FieldError.Tag err;
                           validator.ErrorResponse.Message :=
                             validator.generateMessage err |}])%list)
    with (fun errors err => (errors ++ [toErrorResponse err])%list).
  now rewrite Validate_loop.
Qed.

(** X17: Validate reports one entry per failed rule, in the library's
    order, each with the rule's field and tag; so it reports nothing
    exactly when no rule failed. *)
Theorem Validate_one_entry_per_failed_rule :
  forall (A : Type) (Struct : A -> list validator.FieldError.t) (data : A),
    map validator.ErrorResponse.Field (validator.Validate Struct data)
    = map validator.FieldError.Field (Struct data)
    /\ map validator.ErrorResponse.Tag (validator.Validate Struct data)
       = map validator.FieldError.Tag (Struct data)
    /\ len (validator.Validate Struct data) = len (Struct data)
    /\ (validator.Validate Struct data = [] <-> Struct data = []).
Proof.
  intros A Struct data. rewrite Validate_map.
  rewrite !map_map. cbn [toErrorResponse validator.ErrorResponse.Field
                         validator.ErrorResponse.Tag].
  split; [reflexivity | split; [reflexivity | split]].
  - unfold len. now rewrite length_map.
  - destruct (Struct data); cbn [map]; split; intros H;
      try reflexivity; discriminate H.
Qed.

Lemma append_prefix (s t : string) : String.prefix s (String.append s t) = true.
Proof.
  induction s as [|c s IH]; cbn [String.append String.prefix].
  - destruct t; reflexivity.
  - destruct (Ascii.ascii_dec c c) as [_|Hne]; [exact IH | now elim Hne].
Qed.

(** X18: every message generateMessage builds, for a known tag or an
    unknown one, begins with the name of the field that failed. *)
Theorem generateMessage_begins_with_the_field :
  forall err : validator.FieldError.t,
    String.prefix (validator.FieldError.Field err)
      (validator.generateMessage err) = true.
Proof.
  intros err. unfold validator.generateMessage.
  repeat match goal with
         | |- context [if ?b then _ else _] => destruct b
         end; apply append_prefix.
Qed.

Section tagName_facts.
Lemma SplitN_2_without_comma (s : string) :
  strings.ContainsRune s strings.comma = false ->
  strings.SplitN s strings.comma 2 = [s].
Proof.
  induction s as [|c rest IH]; cbn [strings.SplitN strings.ContainsRune];
    [reflexivity |].
  intros H. apply orb_false_iff in H as [Hc Hrest].
  rewrite Hc, (IH Hrest). reflexivity.
Qed.

Lemma SplitN_2_at_first_comma (name opts : string) :
  strings.ContainsRune name strings.comma = false ->
  strings.SplitN (String.append name (String strings.comma opts))
    strings.comma 2
  = [name; opts].
Proof.
  induction name as [|c rest IH];
    cbn [String.append strings.SplitN strings.ContainsRune].
  - intros _. rewrite Ascii.eqb_refl. destruct opts; reflexivity.
  - intros H. apply orb_false_iff in H as [Hc Hrest].
    rewrite Hc, (IH Hrest). reflexivity.
Qed.

Lemma SplitN_2_head_has_no_comma (s : string) :
  strings.ContainsRune (nth 0 (strings.SplitN s strings.comma 2) EmptyString)
    strings.comma = false.
Proof.
  induction s as [|c rest IH]; cbn [strings.SplitN nth]; [reflexivity |].
  destruct (Ascii.eqb c strings.comma) eqn:Hc; [reflexivity |].
  destruct (strings.SplitN rest strings.comma 2) as [|piece pieces];
    cbn [nth strings.ContainsRune] in *; rewrite Hc; [reflexivity | exact IH].
Qed.
End tagName_facts.

(** X19: the field name the validator reports is the json tag's name: for
    a tag that is a name alone, or a name followed by a comma and options,
    it is that name, unless the name is "-", which gives no name at all;
    and whatever the tag, the reported name contains no comma. *)
Theorem tagName_is_the_json_name :
  forall name opts : string,
    strings.ContainsRune name strings.comma = false ->
    validator.tagName name
    = (if String.eqb name "-" then EmptyString else name)
    /\ validator.tagName (String.append name (String strings.comma opts))
       = (if String.eqb name "-" then EmptyString else name)
    /\ strings.ContainsRune (validator.tagName opts) strings.comma = false.
Proof.
  intros name opts Hname. unfold validator.tagName.
  rewrite (SplitN_2_without_comma name Hname).
  rewrite (SplitN_2_at_first_comma name opts Hname). cbn [nth].
  split; [reflexivity | split; [reflexivity |]].
  destruct (String.eqb _ "-"); [reflexivity |].
  apply SplitN_2_head_has_no_comma.
Qed.

Lemma tagName_is_the_json_name_witness :
  validator.tagName "is_active,omitempty" = "is_active"%string
  /\ validator.tagName "-" = EmptyString.
Proof.
  split.
  - exact (proj1 (proj2 (tagName_is_the_json_name "is_active" "omitempty"
                           eq_refl))).
  - exact (proj1 (tagName_is_the_json_name "-" "" eq_refl)).
Defined.

Lemma getEnv_not_empty (Getenv : string -> string) (key fallback : string) :
  fallback <> EmptyString -> config.getEnv Getenv key fallback <> EmptyString.
Proof.
  intros Hfallback. unfold config.getEnv.
  destruct (String.eqb_spec (Getenv key) ""); cbn [negb]; assumption.
Qed.

(** X20: whatever the environment holds, Load yields an environment name,
    a port, an application name, a database host, port, user and name that
    are not empty (an empty variable counts as unset and gives the built-in
    default), and a token lifetime that is the parsed JWT_EXPIRE_HOURS when
    it is set and is a number, and 24 hours otherwise. *)
Theorem Load_falls_back_to_the_defaults :
  forall (Getenv : string -> string) (Atoi : string -> result Z),
    let cfg := config.Load Getenv Atoi in
    config.Env (config.App cfg) <> EmptyString
    /\ config.Port (config.App cfg) <> EmptyString
    /\ config.Name (config.App cfg) <> EmptyString
    /\ config.Host (config.DB cfg) <> EmptyString
    /\ config.DBPort (config.DB cfg) <> EmptyString
    /\ config.User (config.DB cfg) <> EmptyString
    /\ config.DBName (config.DB cfg) <> EmptyString
    /\ (forall key fallback,
           Getenv key = EmptyString ->
           config.getEnv Getenv key fallback = fallback)
    /\ (forall hours,
           Getenv "JWT_EXPIRE_HOURS"%string <> EmptyString ->
           Atoi (Getenv "JWT_EXPIRE_HOURS"%string) = Ok hours ->
           config.ExpireHours (config.JWT cfg) = hours)
    /\ (Getenv "JWT_EXPIRE_HOURS"%string = EmptyString
        \/ (exists e, Atoi (Getenv "JWT_EXPIRE_HOURS"%string) = Err e) ->
        config.ExpireHours (config.JWT cfg) = 24).
Proof.
  intros Getenv Atoi cfg. subst cfg.
  cbn [config.Load config.App config.DB config.JWT config.Env config.Port
       config.Name config.Host config.DBPort config.User config.DBName
       config.ExpireHours].
  repeat (split; [apply getEnv_not_empty; discriminate |]).
  split; [| split].
  - intros key fallback Hunset. unfold config.getEnv. now rewrite Hunset.
  - intros hours Hset Hparsed. unfold config.getEnvInt.
    destruct (String.eqb_spec (Getenv "JWT_EXPIRE_HOURS"%string) "");
      [contradiction |].
    cbn [negb]. now rewrite Hparsed.
  - intros [Hunset | [e Hfail]]; unfold config.getEnvInt.
    + now rewrite Hunset.
    + rewrite Hfail. now destruct (negb _).
Qed.

Lemma Load_falls_back_to_the_defaults_witness :
  config.Port (config.App (config.Load stub.Getenv stub.Atoi)) <> EmptyString
  /\ config.ExpireHours (config.JWT (config.Load stub.Getenv stub.Atoi)) = 24.
Proof.
  destruct (Load_falls_back_to_the_defaults stub.Getenv stub.Atoi)
    as (_ & Hport & _ & _ & _ & _ & _ & _ & _ & Hhours).
  split; [exact Hport |].
  apply Hhours. right. eexists. reflexivity.
Defined.

(** * Properties of the handlers and the routes *)

Lemma Validate_none {A : Type} (Struct : A -> list validator.FieldError.t)
  (data : A) :
  Struct data = [] -> (0 <? len (validator.Validate Struct data)) = false.
Proof. intros H. rewrite Validate_map, H. reflexivity. Qed.

Lemma Validate_some {A : Type} (Struct : A -> list validator.FieldError.t)
  (data : A) :
  Struct data <> [] -> (0 <? len (validator.Validate Struct data)) = true.
Proof.
  intros H. rewrite Validate_map. destruct (Struct data); [contradiction |].
  apply Z.ltb_lt. unfold len. cbn [map List.length]. lia.
Qed.

(** X21: a request whose body does not parse is answered 400 "Invalid
    request body", and one whose input fails validation is answered 422 with
    the validator's entries; in both cases, on the create, update and login
    endpoints alike, the service is not called and the world is untouched. *)
Theorem rejected_input_never_reaches_the_service :
  forall (S : Type) (Error : error -> string) (c : fiber.Ctx) (st : S),
    (forall BodyParser Struct svc,
        (forall e, BodyParser (fiber.Body c) = Err e ->
                   user_handler.Create BodyParser Struct Error svc c st
                   = (pkg_response.BadRequest "Invalid request body", st))
        /\ (forall input,
               BodyParser (fiber.Body c) = Ok input ->
               Struct input <> [] ->
               user_handler.Create BodyParser Struct Error svc c st
               = (pkg_response.ValidationError
                    (validator.Validate Struct input), st)))
    /\ (forall BodyParser Struct svc,
           (forall e, BodyParser (fiber.Body c) = Err e ->
                      user_handler.Update BodyParser Struct Error svc c st
                      = (pkg_response.BadRequest "Invalid request body", st))
           /\ (forall input,
                  BodyParser (fiber.Body c) = Ok input ->
                  Struct input <> [] ->
                  user_handler.Update BodyParser Struct Error svc c st
                  = (pkg_response.ValidationError
                       (validator.Validate Struct input), st)))
    /\ (forall BodyParser Struct svc,
           (forall e, BodyParser (fiber.Body c) = Err e ->
                      auth_handler.Login BodyParser Struct svc c st
                      = (pkg_response.BadRequest "Invalid request body", st))
           /\ (forall input,
                  BodyParser (fiber.Body c) = Ok input ->
                  Struct input <> [] ->
                  auth_handler.Login BodyParser Struct svc c st
                  = (pkg_response.ValidationError
                       (validator.Validate Struct input), st))).
Proof.
  intros S Error c st.
  split; [| split]; intros BodyParser Struct svc; split.
  1, 3, 5: intros e Hparse;
    unfold user_handler.Create, user_handler.Update, auth_handler.Login;
    rewrite Hparse; reflexivity.
  all: intros input Hparse Hinvalid;
    unfold user_handler.Create, user_handler.Update, auth_handler.Login;
    rewrite Hparse, (Validate_some Struct input Hinvalid); reflexivity.
Qed.

Lemma rejected_input_never_reaches_the_service_witness :
  router.auth_login memdb.crypt memdb.repo memdb.Generate
    stub.BodyParser_Login stub.Struct_Login
    (stub.request "" "" "invalid json") memdb.healthy
  = (pkg_response.BadRequest "Invalid request body", memdb.healthy)
  /\ router.auth_login memdb.crypt memdb.repo memdb.Generate
       stub.BodyParser_Login stub.Struct_Login
       (stub.request "" "" "") memdb.healthy
     = (pkg_response.ValidationError
          [{| validator.ErrorResponse.Field := "email";
              validator.ErrorResponse.Tag := "required";
              validator.ErrorResponse.Message := "email is required" |}],
        memdb.healthy).
Proof.
  destruct (rejected_input_never_reaches_the_service memdb.state stub.Error
              (stub.request "" "" "invalid json") memdb.healthy)
    as (_ & _ & Hparse).
  destruct (rejected_input_never_reaches_the_service memdb.state stub.Error
              (stub.request "" "" "") memdb.healthy)
    as (_ & _ & Hvalid).
  split.
  - exact (proj1 (Hparse stub.BodyParser_Login stub.Struct_Login _) _ eq_refl).
  - refine (proj2 (Hvalid stub.BodyParser_Login stub.Struct_Login _)
              _ eq_refl _).
    discriminate.
Defined.

(** X22: the handlers keep unexpected errors to themselves.  When the
    service fails with an error that is not the endpoint's own domain error,
    the reply is a 500 with the endpoint's fixed text; nothing of the error
    itself is sent. *)
Theorem handlers_hide_unexpected_errors :
  forall (S : Type) (Error : error -> string) (c : fiber.Ctx) (st : S)
         (e : error),
    (forall BodyParser Struct svc input,
        BodyParser (fiber.Body c) = Ok input ->
        Struct input = [] ->
        fst (svc input st) = Err e ->
        errors.Is e ErrEmailAlreadyExists = false ->
        fst (user_handler.Create BodyParser Struct Error svc c st)
        = pkg_response.InternalServerError "Failed to create user")
    /\ (forall svc,
           fst (svc (fiber.Params c "id") st) = Err e ->
           errors.Is e ErrUserNotFound = false ->
           fst (user_handler.FindByID Error svc c st)
           = pkg_response.InternalServerError "Failed to fetch user")
    /\ (forall BodyParser Struct svc input,
           BodyParser (fiber.Body c) = Ok input ->
           Struct input = [] ->
           fst (svc (fiber.Params c "id") input st) = Err e ->
           errors.Is e ErrUserNotFound = false ->
           fst (user_handler.Update BodyParser Struct Error svc c st)
           = pkg_response.InternalServerError "Failed to update user")
    /\ (forall svc,
           fst (svc (fiber.Params c "id") st) = Some e ->
           errors.Is e ErrUserNotFound = false ->
           fst (user_handler.Delete Error svc c st)
           = pkg_response.InternalServerError "Failed to delete user")
    /\ (forall BodyParser Struct svc input,
           BodyParser (fiber.Body c) = Ok input ->
           Struct input = [] ->
           fst (svc input st) = Err e ->
           errors.Is e ErrInvalidCredentials = false ->
           fst (auth_handler.Login BodyParser Struct svc c st)
           = pkg_response.InternalServerError "Login failed").
Proof.
  intros S Error c st e. repeat split.
  - intros BodyParser Struct svc input Hparse Hvalid Hsvc Hother.
    unfold user_handler.Create.
    rewrite Hparse, (Validate_none Struct input Hvalid), bind_run, Hsvc, Hother.
    reflexivity.
  - intros svc Hsvc Hother. unfold user_handler.FindByID.
    rewrite bind_run, Hsvc, Hother. reflexivity.
  - intros BodyParser Struct svc input Hparse Hvalid Hsvc Hother.
    unfold user_handler.Update.
    rewrite Hparse, (Validate_none Struct input Hvalid), bind_run, Hsvc, Hother.
    reflexivity.
  - intros svc Hsvc Hother. unfold user_handler.Delete.
    rewrite bind_run, Hsvc, Hother. reflexivity.
  - intros BodyParser Struct svc input Hparse Hvalid Hsvc Hother.
    unfold auth_handler.Login.
    rewrite Hparse, (Validate_none Struct input Hvalid), bind_run, Hsvc, Hother.
    reflexivity.
Qed.

Lemma handlers_hide_unexpected_errors_witness :
  fst (user_handler.FindByID stub.Error (FindByID memdb.repo)
         (stub.request "" "a1" "") memdb.lookups_down)
  = pkg_response.InternalServerError "Failed to fetch user".
Proof.
  destruct (handlers_hide_unexpected_errors memdb.state stub.Error
              (stub.request "" "a1" "") memdb.lookups_down
              (New "dial tcp 127.0.0.1:5432: connection refused"))
    as (_ & Hfind & _).
  exact (Hfind (FindByID memdb.repo) eq_refl eq_refl).
Defined.

Lemma absent_id_runs {S : Type} (R : repository.UserRepository S) (st : S)
  (id : string) (e : error) :
  fst (repository.FindByID R id st) = Err e ->
  errors.Is e ErrRecordNotFound = true ->
  FindByID (mock.UserRepository R) id (st, [])
  = (Err ErrUserNotFound,
     (snd (repository.FindByID R id st), [mock.CallFindByID id]))
  /\ (forall input,
         Update (mock.UserRepository R) id input (st, [])
         = (Err ErrUserNotFound,
            (snd (repository.FindByID R id st), [mock.CallFindByID id])))
  /\ Delete (mock.UserRepository R) id (st, [])
     = (Some ErrUserNotFound,
        (snd (repository.FindByID R id st), [mock.CallFindByID id])).
Proof.
  intros Hlookup Habsent.
  split; [| split; [intros input |]];
    unfold FindByID, Update, Delete; run;
    rewrite Hlookup, Habsent; reflexivity.
Qed.

(** X23: an id the store does not know is answered 404 on GET, PUT (with a
    valid body) and DELETE of /users/:id, each time with the text of
    ErrUserNotFound; PUT and DELETE then write nothing: the look-up is the
    only call on the store. *)
Theorem absent_id_is_answered_404 :
  forall (S : Type) (R : repository.UserRepository S)
         (Error : error -> string) (c : fiber.Ctx) (st : S) (e : error),
    fst (repository.FindByID R (fiber.Params c "id") st) = Err e ->
    errors.Is e ErrRecordNotFound = true ->
    mock.answer (user_handler.FindByID Error
                   (FindByID (mock.UserRepository R)) c) st
    = pkg_response.NotFound (Error ErrUserNotFound)
    /\ (forall BodyParser Struct input,
           BodyParser (fiber.Body c) = Ok input ->
           Struct input = [] ->
           mock.answer (user_handler.Update BodyParser Struct Error
                          (Update (mock.UserRepository R)) c) st
           = pkg_response.NotFound (Error ErrUserNotFound)
           /\ mock.calls (user_handler.Update BodyParser Struct Error
                            (Update (mock.UserRepository R)) c) st
              = [mock.CallFindByID (fiber.Params c "id")])
    /\ mock.answer (user_handler.Delete Error
                      (Delete (mock.UserRepository R)) c) st
       = pkg_response.NotFound (Error ErrUserNotFound)
    /\ mock.calls (user_handler.Delete Error
                     (Delete (mock.UserRepository R)) c) st
       = [mock.CallFindByID (fiber.Params c "id")].
Proof.
  intros S R Error c st e Hlookup Habsent.
  destruct (absent_id_runs R st (fiber.Params c "id") e Hlookup Habsent)
    as (Hfind & Hupdate & Hdelete).
  unfold mock.answer, mock.calls in *.
  unfold user_handler.FindByID, user_handler.Update, user_handler.Delete.
  split; [| split; [| split]].
  - rewrite bind_run, Hfind. reflexivity.
  - intros BodyParser Struct input Hparse Hvalid.
    rewrite Hparse, (Validate_none Struct input Hvalid), bind_run.
    rewrite (Hupdate input). split; reflexivity.
  - rewrite bind_run, Hdelete. reflexivity.
  - rewrite bind_run, Hdelete. reflexivity.
Qed.

Lemma absent_id_is_answered_404_witness :
  mock.answer (user_handler.Delete stub.Error
                 (Delete (mock.UserRepository memdb.repo))
                 (stub.request "" "invalid-id" "")) memdb.healthy
  = pkg_response.NotFound "user not found"
  /\ mock.calls (user_handler.Delete stub.Error
                   (Delete (mock.UserRepository memdb.repo))
                   (stub.request "" "invalid-id" "")) memdb.healthy
     = [mock.CallFindByID "invalid-id"].
Proof.
  destruct (absent_id_is_answered_404 memdb.state memdb.repo stub.Error
              (stub.request "" "invalid-id" "") memdb.healthy
              ErrRecordNotFound eq_refl eq_refl)
    as (_ & _ & Hanswer & Hcalls).
  split; [exact Hanswer | exact Hcalls].
Defined.

(** X24: on POST /auth/login with a well-formed body, a failed look-up (for
    whatever reason), a password that does not match and an inactive account
    are all answered with the same reply, 401 "Invalid email or password". *)
Theorem login_route_failures_look_alike :
  forall (S : Type) (crypt : bcrypt.Package S)
         (R : repository.UserRepository S)
         (Generate : string -> string -> string -> M S (result jwt.Token))
         (BodyParser : string -> result LoginInput.t)
         (Struct : LoginInput.t -> list validator.FieldError.t)
         (c : fiber.Ctx) (st : S) (input : LoginInput.t),
    BodyParser (fiber.Body c) = Ok input ->
    Struct input = [] ->
    (exists e,
        fst (repository.FindByEmail R (LoginInput.Email input) st) = Err e)
    \/ (exists u,
           fst (repository.FindByEmail R (LoginInput.Email input) st) = Ok u
           /\ bcrypt.CompareHashAndPassword crypt (Password u)
                (LoginInput.Password input) <> None)
    \/ (exists u,
           fst (repository.FindByEmail R (LoginInput.Email input) st) = Ok u
           /\ IsActive u = false) ->
    fst (router.auth_login crypt R Generate BodyParser Struct c st)
    = pkg_response.Unauthorized "Invalid email or password".
Proof.
  intros S crypt R Generate BodyParser Struct c st input Hparse Hvalid Hcause.
  assert (Hlogin : fst (Login crypt R Generate input st)
                   = Err ErrInvalidCredentials).
  { destruct Hcause as [[e Hl] | [[u [Hl Hp]] | [u [Hl Ha]]]].
    - eapply Login_lookup_error; eassumption.
    - eapply Login_wrong_password; eassumption.
    - eapply Login_inactive; eassumption. }
  unfold router.auth_login, auth_handler.Login.
  rewrite Hparse, (Validate_none Struct input Hvalid), bind_run, Hlogin.
  reflexivity.
Qed.

Lemma login_route_failures_look_alike_witness :
  fst (router.auth_login memdb.crypt memdb.repo memdb.Generate
         stub.BodyParser_Login stub.Struct_Login
         (stub.request "" "" "alice@example.com") memdb.lookups_down)
  = pkg_response.Unauthorized "Invalid email or password"
  /\ fst (router.auth_login memdb.crypt memdb.repo memdb.Generate
            stub.BodyParser_Login stub.Struct_Login
            (stub.request "" "" "bob@example.com") memdb.healthy)
     = pkg_response.Unauthorized "Invalid email or password".
Proof.
  split.
  - apply (login_route_failures_look_alike memdb.state memdb.crypt memdb.repo
             memdb.Generate stub.BodyParser_Login stub.Struct_Login
             (stub.request "" "" "alice@example.com") memdb.lookups_down
             {| LoginInput.Email := "alice@example.com";
                LoginInput.Password := "correct horse" |} eq_refl eq_refl).
    left. eexists. reflexivity.
  - apply (login_route_failures_look_alike memdb.state memdb.crypt memdb.repo
             memdb.Generate stub.BodyParser_Login stub.Struct_Login
             (stub.request "" "" "bob@example.com") memdb.healthy
             {| LoginInput.Email := "bob@example.com";
                LoginInput.Password := "correct horse" |} eq_refl eq_refl).
    right; left. exists memdb.bob. split; [reflexivity | discriminate].
Defined.

(** X25: POST /users with a well-formed body whose email the store already
    has is answered 400 with the text of ErrEmailAlreadyExists; the look-up
    is the only call on the store. *)
Theorem create_route_duplicate_email :
  forall (S : Type) (crypt : bcrypt.Package S)
         (R : repository.UserRepository S) (Error : error -> string)
         (BodyParser : string -> result CreateUserInput.t)
         (Struct : CreateUserInput.t -> list validator.FieldError.t)
         (c : fiber.Ctx) (st : S) (input : CreateUserInput.t)
         (existing : User),
    BodyParser (fiber.Body c) = Ok input ->
    Struct input = [] ->
    fst (repository.FindByEmail R (CreateUserInput.Email input) st)
      = Ok existing ->
    mock.answer
      (router.users_create (mock.Bcrypt crypt) (mock.UserRepository R) Error
         BodyParser Struct c) st
    = pkg_response.BadRequest (Error ErrEmailAlreadyExists)
    /\ mock.calls
         (router.users_create (mock.Bcrypt crypt) (mock.UserRepository R)
            Error BodyParser Struct c) st
       = [mock.CallFindByEmail (CreateUserInput.Email input)].
Proof.
  intros S crypt R Error BodyParser Struct c st input existing
         Hparse Hvalid Hlookup.
  unfold mock.answer, mock.calls, router.users_create, user_handler.Create.
  rewrite Hparse, (Validate_none Struct input Hvalid), bind_run.
  rewrite (Create_after_successful_lookup crypt R st input existing Hlookup).
  split; reflexivity.
Qed.

Lemma create_route_duplicate_email_witness :
  mock.answer
    (router.users_create (mock.Bcrypt memdb.crypt)
       (mock.UserRepository memdb.repo) stub.Error
       stub.BodyParser_Create stub.Struct_Create
       (stub.request "" "" "alice@example.com")) memdb.healthy
  = pkg_response.BadRequest "email already exists"
  /\ mock.calls
       (router.users_create (mock.Bcrypt memdb.crypt)
          (mock.UserRepository memdb.repo) stub.Error
          stub.BodyParser_Create stub.Struct_Create
          (stub.request "" "" "alice@example.com")) memdb.healthy
     = [mock.CallFindByEmail "alice@example.com"].
Proof.
  exact (create_route_duplicate_email memdb.state memdb.crypt memdb.repo
           stub.Error stub.BodyParser_Create stub.Struct_Create
           (stub.request "" "" "alice@example.com") memdb.healthy
           {| CreateUserInput.Name := "Carol";
              CreateUserInput.Email := "alice@example.com";
              CreateUserInput.Password := "password123" |}
           memdb.alice eq_refl eq_refl eq_refl).
Defined.

Lemma Untracked_run {S A : Type} (m : M S A) (st : S) (log : list mock.Call) :
  mock.Untracked m (st, log) = (fst (m st), (snd (m st), log)).
Proof. unfold mock.Untracked; simpl. destruct (m st); reflexivity. Qed.

(** X26: the protected routes reach the store only for a validated token.
    If GET or PUT /users/:id makes any call on the store, the request
    carried "Bearer " and a token that validation accepted; if DELETE
    /users/:id does, the accepted token's role was moreover "admin". *)
Theorem protected_routes_need_a_valid_token :
  forall (S : Type) (R : repository.UserRepository S)
         (Validate : string -> M S (result jwt.Claims))
         (Error : error -> string)
         (BodyParser : string -> result UpdateUserInput.t)
         (Struct : UpdateUserInput.t -> list validator.FieldError.t)
         (c : fiber.Ctx) (st : S),
    (mock.calls
       (router.users_find (mock.UserRepository R)
          (fun token => mock.Untracked (Validate token)) Error c) st <> [] ->
     exists token claims,
       fiber.Get c "Authorization" = String.append "Bearer " token
       /\ fst (Validate token st) = Ok claims)
    /\ (mock.calls
          (router.users_update (mock.UserRepository R)
             (fun token => mock.Untracked (Validate token)) Error
             BodyParser Struct c) st <> [] ->
        exists token claims,
          fiber.Get c "Authorization" = String.append "Bearer " token
          /\ fst (Validate token st) = Ok claims)
    /\ (mock.calls
          (router.users_delete (mock.UserRepository R)
             (fun token => mock.Untracked (Validate token)) Error c) st <> [] ->
        exists token claims,
          fiber.Get c "Authorization" = String.append "Bearer " token
          /\ fst (Validate token st) = Ok claims
          /\ jwt.Role claims = "admin"%string).
Proof.
  intros S R Validate Error BodyParser Struct c st.
  unfold mock.calls, router.users_find, router.users_update,
    router.users_delete.
  split; [| split]; intros Hcalls;
    match type of Hcalls with
    | context [middleware.Auth ?V ?E ?n c (st, [])] =>
        destruct (Auth_cases V E n c (st, []))
          as [[message Hrun] | (token & Hheader & _ & Hrun)];
        rewrite Hrun in Hcalls; [now elim Hcalls |]
    end;
    rewrite Untracked_run in Hcalls; cbn [fst snd] in Hcalls;
    destruct (fst (Validate token st)) as [claims|err] eqn:Hvalid;
    cbn [fst snd] in Hcalls; try (now elim Hcalls);
    exists token, claims; split; try exact Hheader.
  - exact Hvalid.
  - exact Hvalid.
  - split; [exact Hvalid |].
    unfold middleware.RoleRequired in Hcalls.
    rewrite Locals_SetLocals in Hcalls.
    destruct (String.eqb_spec (jwt.Role claims) "admin") as [Hadmin|Hother];
      [exact Hadmin |].
    cbn [middleware.RoleRequired_range] in Hcalls.
    apply String.eqb_neq in Hother. rewrite Hother in Hcalls.
    now elim Hcalls.
Qed.

Lemma protected_routes_need_a_valid_token_witness :
  exists token claims,
    fiber.Get (stub.request "Bearer alice-token" "b2" "") "Authorization"
    = String.append "Bearer " token
    /\ fst (stub.Validate token memdb.healthy) = Ok claims
    /\ jwt.Role claims = "admin"%string.
Proof.
  destruct (protected_routes_need_a_valid_token memdb.state memdb.repo
              stub.Validate stub.Error stub.BodyParser_Update
              stub.Struct_Update (stub.request "Bearer alice-token" "b2" "")
              memdb.healthy) as (_ & _ & Hdelete).
  apply Hdelete. discriminate.
Defined.
